(** * CO-PO: grading, CO achievement and PO attainment

    A shallow embedding of [cgpa_calculator.py] (classes [CGPACalculator] and
    [MLAnalyzer]) and of the cluster labelling of [app.py].

    Conventions of the embedding.
    - The code is read twice. In the exact reading Python floats are
      rationals ([Q]) compared with [==], pandas' missing marker (NaN, what
      [pd.isna] detects) is [None] in an [option], and a row has its ten
      input cells. Module [Binary64] transcribes [calculate_co_achievement],
      [calculate_all_co_achievements] and the loop body of
      [calculate_po_attainment] in the interpreter's own arithmetic
      (binary64, Rocq's primitive floats), on rows of a table in which an
      input column can be absent, so that [row[col]] can raise [KeyError].
      What depends on rounding or on an absent column is stated there.
    - A [str] is a [string]; its characters are the code points below 256.
    - A student table is held column-wise, as pandas does: the ten typed
      input columns of a row ([{component}_marks], [{component}_co_mapping])
      are a record, every other numeric column is an entry of a finite map
      from the column name to the list of its cells.
    - Exceptions are values of an error type. *)

From Stdlib Require Import QArith Qfield Lqa Lia List.
From Stdlib Require Import Strings.String Strings.Ascii DecimalString.
From Stdlib Require Import Floats.
From stdpp Require Import gmap strings list fin_maps.

Open Scope Q_scope.

(** Decimal literals such as 0.30 denote the nearest binary64 number, as
    they do in Python. *)
Set Warnings "-inexact-float".

(** ** Python built-ins used by the source *)

Module Py.

(** Exceptions the modelled code can raise. [KeyError] and [IndexError] are
    the two subclasses of Python's [LookupError]. *)
Inductive exn := KeyError | IndexError.

Inductive result (A : Type) :=
| Ok (a : A)
| Raise (e : exn).
Arguments Ok {A} a.
Arguments Raise {A} e.

Definition bind {A B} (r : result A) (k : A -> result B) : result B :=
  match r with
  | Ok a => k a
  | Raise e => Raise e
  end.

Definition is_lookup_error (e : exn) : bool :=
  match e with KeyError | IndexError => true end.

(** [str.isspace] on the code points below 256: TAB..CR, the separators
    FS..US, SPACE, NEL and NBSP. *)
Definition isspace (c : ascii) : bool :=
  let n := nat_of_ascii c in
  ((9 <=? n) && (n <=? 13) || (28 <=? n) && (n <=? 32)
   || (n =? 133) || (n =? 160))%nat.

Definition comma : ascii := ","%char.

(** [s.split(',')]: one piece more than there are commas. *)
Fixpoint split_comma (s : string) : list string :=
  match s with
  | EmptyString => [EmptyString]
  | String c rest =>
      if Ascii.eqb c comma then EmptyString :: split_comma rest
      else match split_comma rest with
           | piece :: pieces => String c piece :: pieces
           | [] => [String c EmptyString]
           end
  end.

Fixpoint lstrip (s : string) : string :=
  match s with
  | EmptyString => EmptyString
  | String c rest => if isspace c then lstrip rest else s
  end.

Fixpoint rstrip (s : string) : string :=
  match s with
  | EmptyString => EmptyString
  | String c rest =>
      match rstrip rest with
      | EmptyString => if isspace c then EmptyString else String c EmptyString
      | kept => String c kept
      end
  end.

(** [s.strip()] *)
Definition strip (s : string) : string := rstrip (lstrip s).

(** [x in xs] for a list of strings *)
Definition contains (x : string) (xs : list string) : bool :=
  existsb (String.eqb x) xs.

(** [','.join(xs)] *)
Fixpoint join_comma (xs : list string) : string :=
  match xs with
  | [] => EmptyString
  | [x] => x
  | x :: rest => (x ++ String comma (join_comma rest))%string
  end.

(** [str(i)] for a natural number *)
Definition str_nat (i : nat) : string :=
  NilEmpty.string_of_uint (Nat.to_uint i).

(** [sum(xs)] *)
Definition sum (xs : list Q) : Q := fold_right Qplus 0 xs.

(** [x > 0] *)
Definition gt0 (x : Q) : bool := negb (Qle_bool x 0).

End Py.

(** ** class CGPACalculator: grading *)

Inductive component := mid | final | ct | assignment | attendance.

(** The iteration order of
    [for component in ['mid', 'final', 'ct', 'assignment', 'attendance']]. *)
Definition components : list component :=
  [mid; final; ct; assignment; attendance].

(** The typed input columns of one row of a student table that has all ten
    of them: [row[f'{component}_marks']] and
    [row[f'{component}_co_mapping']]. [None] is a missing cell (NaN). A row
    of a table that lacks one of the columns is a [Binary64.Series]. *)
Record Row := {
  marks : component -> option Q;
  co_mapping : component -> option string
}.

(** [self.weights] *)
Definition weights (c : component) : Q :=
  match c with
  | mid => 0.30
  | final => 0.40
  | ct => 0.15
  | assignment => 0.10
  | attendance => 0.05
  end.

(** Float arithmetic in the presence of NaN: a missing operand makes the
    result missing, and every comparison with a missing value is false. *)
Definition nan_mul (x : option Q) (w : Q) : option Q :=
  match x with Some v => Some (v * w) | None => None end.

Definition nan_add (x y : option Q) : option Q :=
  match x, y with Some a, Some b => Some (a + b) | _, _ => None end.

Definition nan_ge (x : option Q) (bound : Q) : bool :=
  match x with Some v => Qle_bool bound v | None => false end.

Definition marks_to_grade (percentage : option Q) : string * Q :=
  if nan_ge percentage 90 then ("A+"%string, 4.0)
  else if nan_ge percentage 85 then ("A"%string, 3.7)
  else if nan_ge percentage 80 then ("A-"%string, 3.3)
  else if nan_ge percentage 75 then ("B+"%string, 3.0)
  else if nan_ge percentage 70 then ("B"%string, 2.7)
  else if nan_ge percentage 65 then ("B-"%string, 2.3)
  else if nan_ge percentage 60 then ("C+"%string, 2.0)
  else if nan_ge percentage 55 then ("C"%string, 1.7)
  else if nan_ge percentage 50 then ("C-"%string, 1.3)
  else if nan_ge percentage 45 then ("D+"%string, 1.0)
  else if nan_ge percentage 40 then ("D"%string, 0.7)
  else ("F"%string, 0.0).

Definition calculate_total_marks (row : Row) : option Q :=
  nan_add (nan_add (nan_add (nan_add
    (nan_mul (marks row mid) (weights mid))
    (nan_mul (marks row final) (weights final)))
    (nan_mul (marks row ct) (weights ct)))
    (nan_mul (marks row assignment) (weights assignment)))
    (nan_mul (marks row attendance) (weights attendance)).

Definition calculate_cgpa_for_student (row : Row) : option Q * string * Q :=
  let total_marks := calculate_total_marks row in
  let '(grade, grade_points) := marks_to_grade total_marks in
  (total_marks, grade, grade_points).

(** ** class CGPACalculator: CO achievement *)

Definition parse_co_mapping (co_string : option string) : list string :=
  match co_string with
  | None => []
  | Some s =>
      if String.eqb s EmptyString then []
      else map Py.strip (Py.split_comma s)
  end.

(** [co_weightage[component]['max_marks']] *)
Definition max_marks (c : component) : Q :=
  match c with
  | mid => 30
  | final => 40
  | ct => 15
  | assignment => 10
  | attendance => 5
  end.

(** [len(cos)] as a number *)
Definition len (cos : list string) : Q := inject_Z (Z.of_nat (length cos)).

(** [weighted_score] of one component, once [co_name in cos] is known, in
    exact arithmetic ([Binary64.weighted_score] is the same line with its
    rounding). *)
Definition weighted_score (m : Q) (cos : list string) (c : component) : Q :=
  let co_share := if (0 <? length cos)%nat then m / len cos else m in
  (co_share / max_marks c) * weights c * 100.

(** One iteration of the loop over the components; the accumulator is
    [(total_co_score, total_weighted_score)]. The row has its ten cells, so
    neither [row[marks_col]] nor [row[co_col]] raises here
    ([Binary64.co_step] has the [KeyError]). *)
Definition co_step (row : Row) (co_name : string)
    (acc : Q * Q) (c : component) : Q * Q :=
  let '(total_co_score, total_weighted_score) := acc in
  match marks row c, co_mapping row c with
  | Some m, Some s =>
      let cos := parse_co_mapping (Some s) in
      if Py.contains co_name cos then
        (total_co_score + weighted_score m cos c,
         total_weighted_score + weights c * 100)
      else acc
  | _, _ => acc
  end.

Definition calculate_co_achievement (row : Row) (co_name : string) : Q :=
  let '(total_co_score, total_weighted_score) :=
    fold_left (co_step row co_name) components (0, 0) in
  if Py.gt0 total_weighted_score
  then total_co_score / total_weighted_score * 100
  else 0.

(** ** The student table and the CO-PO weight table *)

(** A [DataFrame] of students. [rows] holds the typed input columns, one
    record per row; the index is the default one of [pd.read_excel], the
    positions 0, 1, ...; [columns] holds every other numeric column by name. No column name handled below ([..._achievement],
    [..._attainment], [grade_points], [performance_cluster]) is the name of a
    typed input column. *)
Record DataFrame := {
  rows : list Row;
  columns : gmap string (list Q)
}.

(** [len(df)] *)
Definition nrows (df : DataFrame) : nat := length (rows df).

(** [df[col] = values] *)
Definition set_column (df : DataFrame) (col : string) (values : list Q)
    : DataFrame :=
  {| rows := rows df; columns := <[col := values]> (columns df) |}.

(** [df.at[idx, col] = v], for a column that exists. *)
Definition set_at (df : DataFrame) (idx : nat) (col : string) (v : Q)
    : DataFrame :=
  {| rows := rows df;
     columns := alter (fun cells => <[idx := v]> cells) col (columns df) |}.

(** [row.get(col, default)] for the row at position [idx]. *)
Definition row_get (df : DataFrame) (idx : nat) (col : string) (default : Q)
    : Q :=
  match columns df !! col with
  | Some cells =>
      match cells !! idx with
      | Some v => v
      | None => default
      end
  | None => default
  end.

(** [f'{co}_achievement'] and [f'{po}_attainment'] *)
Definition achievement_col (co : string) : string :=
  (co ++ "_achievement")%string.

Definition attainment_col (po : string) : string :=
  (po ++ "_attainment")%string.

Definition calculate_all_co_achievements (df : DataFrame)
    (co_list : list string) : DataFrame :=
  fold_left
    (fun df co =>
       set_column df (achievement_col co)
         (map (fun row => calculate_co_achievement row co) (rows df)))
    co_list df.

(** The CO-PO mapping sheet, column-wise: the [Course_Outcome] column and
    the numeric columns by name. *)
Record Mapping := {
  Course_Outcome : list string;
  weight_columns : gmap string (list Q)
}.

(** The cells of a column selected by the mask
    [co_po_mapping['Course_Outcome'] == co]. *)
Fixpoint loc_mask (names : list string) (cells : list Q) (co : string)
    : list Q :=
  match names, cells with
  | name :: names', v :: cells' =>
      if String.eqb name co then v :: loc_mask names' cells' co
      else loc_mask names' cells' co
  | _, _ => []
  end.

(** [co_po_mapping.loc[co_po_mapping['Course_Outcome'] == co, po].iloc[0]] *)
Definition lookup_weight (co_po_mapping : Mapping) (co po : string)
    : Py.result Q :=
  match weight_columns co_po_mapping !! po with
  | None => Py.Raise Py.KeyError
  | Some cells =>
      match loc_mask (Course_Outcome co_po_mapping) cells co with
      | [] => Py.Raise Py.IndexError
      | co_weight :: _ => Py.Ok co_weight
      end
  end.

(** [po_list = [f'PO{i}' for i in range(1, 13)]] *)
Definition po_list : list string :=
  map (fun i => ("PO" ++ Py.str_nat i)%string) (seq 1 12).

(** ** class CGPACalculator: PO attainment *)

(** The loop [for co in co_list] for one row and one PO. [get] is
    [row.get]; the accumulator is [(po_score, total_co_weight)]. The sums
    are exact here ([Binary64.po_co_loop] accumulates in binary64). *)
Fixpoint po_co_loop (co_po_mapping : Mapping) (get : string -> Q -> Q)
    (po : string) (co_list : list string) (acc : Q * Q)
    : Py.result (Q * Q) :=
  match co_list with
  | [] => Py.Ok acc
  | co :: rest =>
      Py.bind (lookup_weight co_po_mapping co po) (fun co_weight =>
        if Py.gt0 co_weight then
          let co_achievement := get (achievement_col co) 0 in
          po_co_loop co_po_mapping get po rest
            (fst acc + co_achievement * co_weight, snd acc + co_weight)
        else po_co_loop co_po_mapping get po rest acc)
  end.

(** The loop [for idx, row in df.iterrows()] for one PO. The rows iterated
    over are those of [view], the table as it is when the loop starts. *)
Fixpoint po_row_loop (co_po_mapping : Mapping) (co_list : list string)
    (po : string) (view : DataFrame) (idxs : list nat) (df : DataFrame)
    : Py.result DataFrame :=
  match idxs with
  | [] => Py.Ok df
  | idx :: rest =>
      Py.bind
        (po_co_loop co_po_mapping (row_get view idx) po co_list (0, 0))
        (fun acc =>
           let '(po_score, total_co_weight) := acc in
           po_row_loop co_po_mapping co_list po view rest
             (if Py.gt0 total_co_weight
              then set_at df idx (attainment_col po)
                     (po_score / total_co_weight)
              else df))
  end.

(** The loop [for po in po_list]. *)
Fixpoint po_loop (co_po_mapping : Mapping) (co_list : list string)
    (pos : list string) (df : DataFrame) : Py.result DataFrame :=
  match pos with
  | [] => Py.Ok df
  | po :: rest =>
      let df0 := set_column df (attainment_col po) (replicate (nrows df) 0.0) in
      Py.bind
        (po_row_loop co_po_mapping co_list po df0 (seq 0 (nrows df0)) df0)
        (po_loop co_po_mapping co_list rest)
  end.

Definition calculate_po_attainment (df : DataFrame) (co_po_mapping : Mapping)
    (co_list : list string) : Py.result DataFrame :=
  po_loop co_po_mapping co_list po_list df.

(** ** class MLAnalyzer: clustering *)

(** One entry of [cluster_analysis]. A mean over no rows is NaN. *)
Record ClusterInfo := {
  size : nat;
  avg_cgpa : option Q;
  characteristics : gmap string (option Q)
}.

(** [Series.mean()] *)
Definition mean (xs : list Q) : option Q :=
  match xs with
  | [] => None
  | _ => Some (Py.sum xs / inject_Z (Z.of_nat (length xs)))
  end.

(** The cells of a column at the row positions [idxs]. *)
Definition take_rows (idxs : list nat) (cells : list Q) : list Q :=
  omap (fun i => cells !! i) idxs.

(** The row positions selected by [df['performance_cluster'] == cluster_id]. *)
Definition cluster_members (df : DataFrame) (cluster_id : nat) : list nat :=
  match columns df !! "performance_cluster"%string with
  | Some cells =>
      List.filter
        (fun i => match cells !! i with
                  | Some k => Qeq_bool k (inject_Z (Z.of_nat cluster_id))
                  | None => false
                  end)
        (seq 0 (nrows df))
  | None => []
  end.

Definition _analyze_cluster_characteristics (df : DataFrame)
    (members : list nat) (feature_names : list string)
    : gmap string (option Q) :=
  fold_left
    (fun characteristics feature =>
       match columns df !! feature with
       | Some cells => <[feature := mean (take_rows members cells)]> characteristics
       | None => characteristics
       end)
    feature_names ∅.

(** One of the two loops that collect the features: a column that is present
    is appended to [features], its name to [feature_names]. *)
Definition add_feature (df : DataFrame)
    (acc : list (list Q) * list string) (col : string)
    : list (list Q) * list string :=
  match columns df !! col with
  | Some values => (fst acc ++ [values], snd acc ++ [col])
  | None => acc
  end.

(** [np.column_stack(features)], as the list of the rows of the matrix. *)
Definition column_stack (n : nat) (features : list (list Q))
    : list (list Q) :=
  map (fun i => map (fun cells => default 0 (cells !! i)) features) (seq 0 n).

Section MLAnalyzer.

(** scikit-learn's [MinMaxScaler().fit_transform] and
    [KMeans(n_clusters=3, random_state=42).fit_predict] are library code:
    they are parameters of the model, and stand for the two calls where
    these return. [fit_predict] raises [ValueError] on fewer than three
    rows; what is stated of the code after that call is stated for tables
    of at least three rows, or under [sklearn_shapes]. *)
Variable scaler_fit_transform : list (list Q) -> list (list Q).
Variable kmeans_fit_predict : list (list Q) -> list nat.

(** The body of [for cluster_id in range(3)]. *)
Definition analyze_cluster (df : DataFrame) (feature_names : list string)
    (cluster_analysis : gmap nat ClusterInfo) (cluster_id : nat)
    : Py.result (gmap nat ClusterInfo) :=
  let members := cluster_members df cluster_id in
  match columns df !! "grade_points"%string with
  | None => Py.Raise Py.KeyError
  | Some grade_points =>
      Py.Ok (<[cluster_id :=
                {| size := length members;
                   avg_cgpa := mean (take_rows members grade_points);
                   characteristics :=
                     _analyze_cluster_characteristics df members feature_names |}]>
             cluster_analysis)
  end.

Definition student_clustering (df : DataFrame)
    (co_list po_list : list string)
    : Py.result (DataFrame * gmap nat ClusterInfo) :=
  let acc := fold_left (add_feature df) (map achievement_col co_list) ([], []) in
  let acc := fold_left (add_feature df) (map attainment_col po_list) acc in
  let '(features, feature_names) := acc in
  if (length features =? 0)%nat then Py.Ok (df, ∅)
  else
    let feature_matrix := column_stack (nrows df) features in
    let feature_matrix_scaled := scaler_fit_transform feature_matrix in
    let clusters := kmeans_fit_predict feature_matrix_scaled in
    let df := set_column df "performance_cluster"
                (map (fun k => inject_Z (Z.of_nat k)) clusters) in
    Py.bind
      (fold_left
         (fun r cluster_id =>
            Py.bind r (fun cluster_analysis =>
              analyze_cluster df feature_names cluster_analysis cluster_id))
         (seq 0 3) (Py.Ok ∅))
      (fun cluster_analysis => Py.Ok (df, cluster_analysis)).

End MLAnalyzer.

(** ** app.py: the performance group shown for a cluster *)

(** The three display strings of [cluster_names], in list order:
    "High Performer", "Average Performer", "Needs Improvement". *)
Inductive performance_group :=
| HighPerformer
| AveragePerformer
| NeedsImprovement.

Definition cluster_names : list performance_group :=
  [HighPerformer; AveragePerformer; NeedsImprovement].

(** [int(x)]: truncation toward zero. *)
Definition int (x : Q) : Z := Z.quot (Qnum x) (Zpos (Qden x)).

(** [xs[i]] for a Python list: a negative index counts from the end. *)
Definition list_index {A} (xs : list A) (i : Z) : Py.result A :=
  let n := Z.of_nat (length xs) in
  let pos := if (i <? 0)%Z then (i + n)%Z else i in
  if (pos <? 0)%Z then Py.Raise Py.IndexError
  else match xs !! Z.to_nat pos with
       | Some x => Py.Ok x
       | None => Py.Raise Py.IndexError
       end.

(** [show_teacher_analysis] and [show_student_report]:
    [cluster_names[cluster_id]] with
    [cluster_id = int(student['performance_cluster'])], or 1 for [None]. *)
Definition shown_performance_group (performance_cluster : option Q)
    : Py.result performance_group :=
  let cluster_id :=
    match performance_cluster with
    | Some k => int k
    | None => 1%Z
    end in
  list_index cluster_names cluster_id.

(** [student['performance_cluster']] for the row at [idx] of a table that
    has the column. *)
Definition student_performance_group (df : DataFrame) (idx : nat)
    : option (Py.result performance_group) :=
  match columns df !! "performance_cluster"%string with
  | Some cells =>
      match cells !! idx with
      | Some k => Some (shown_performance_group (Some k))
      | None => None
      end
  | None => None
  end.

(** [show_teacher_portal]: the bar labels
    [[cluster_names[i] for i in cluster_counts.index]], where the index is
    the sorted distinct cluster ids. *)
Fixpoint insert_sorted (k : Z) (ks : list Z) : list Z :=
  match ks with
  | [] => [k]
  | k' :: rest =>
      if (k <? k')%Z then k :: ks
      else if (k =? k')%Z then ks
      else k' :: insert_sorted k rest
  end.

Definition cluster_index (cells : list Q) : list Z :=
  fold_right insert_sorted [] (map int cells).

Fixpoint portal_cluster_labels (index : list Z)
    : Py.result (list performance_group) :=
  match index with
  | [] => Py.Ok []
  | i :: rest =>
      Py.bind (list_index cluster_names i) (fun label =>
        Py.bind (portal_cluster_labels rest) (fun labels =>
          Py.Ok (label :: labels)))
  end.

(** The sibling path of the "ML Insights" tab names a cluster from its
    mean grade point: [analysis['avg_cgpa'] >= 3.5], [>= 2.5], else. *)
Definition insights_cluster_group (analysis : ClusterInfo)
    : performance_group :=
  if nan_ge (avg_cgpa analysis) 3.5 then HighPerformer
  else if nan_ge (avg_cgpa analysis) 2.5 then AveragePerformer
  else NeedsImprovement.

(** ** Statements of the specification, in its own words *)

(** Breakpoint table of the Grading Engine (inclusive lower bounds), as the
    specification lists it. *)
Definition breakpoints : list (Q * (string * Q)) :=
  [ (90, ("A+", 4.0)); (85, ("A", 3.7)); (80, ("A-", 3.3));
    (75, ("B+", 3.0)); (70, ("B", 2.7)); (65, ("B-", 2.3));
    (60, ("C+", 2.0)); (55, ("C", 1.7)); (50, ("C-", 1.3));
    (45, ("D+", 1.0)); (40, ("D", 0.7)) ]%string.

(** [bound] is the highest lower bound of the table that [v] reaches. *)
Definition highest_match (v bound : Q) : Prop :=
  bound <= v /\
  forall b g, In (b, g) breakpoints -> b <= v -> b <= bound.

(** The scenario of the specification's last testable property:
    mid 25, final 35, class test 12, assignment 8, attendance 4. *)
Definition scenario_row : Row :=
  {| marks := fun c =>
       Some match c with
            | mid => 25 | final => 35 | ct => 12
            | assignment => 8 | attendance => 4
            end;
     co_mapping := fun _ => None |}.

(** A component maps to a CO: its mark and its CO-tag string are both
    present and its tag list contains the CO. *)
Definition maps_to (row : Row) (co : string) (c : component) : bool :=
  match marks row c, co_mapping row c with
  | Some _, Some s => Py.contains co (parse_co_mapping (Some s))
  | _, _ => false
  end.

Definition mapped_components (row : Row) (co : string) : list component :=
  List.filter (maps_to row co) components.

Definition mark_of (row : Row) (c : component) : Q :=
  match marks row c with
  | Some m => m
  | None => 0
  end.

Definition tag_count (row : Row) (c : component) : Q :=
  len (parse_co_mapping (co_mapping row c)).

(** [((mark / tagCount) / componentMax) * componentWeight], summed over the
    components that map to the CO, and the sum of their weights. *)
Definition co_numerator (row : Row) (co : string) : Q :=
  Py.sum (map (fun c => ((mark_of row c / tag_count row c) / max_marks c)
                        * weights c)
              (mapped_components row co)).

Definition co_denominator (row : Row) (co : string) : Q :=
  Py.sum (map weights (mapped_components row co)).

(** "(sum of weighted contributions) / (sum of weights) * 100, or 0 if no
    component maps to this CO". *)
Definition co_achievement_spec (row : Row) (co : string) : Q :=
  match mapped_components row co with
  | [] => 0
  | _ => co_numerator row co / co_denominator row co * 100
  end.

(** What the loop of [calculate_co_achievement] adds to [total_co_score]
    at component [c] when it runs for the CO [co]. *)
Definition co_contribution (row : Row) (c : component) (co : string) : Q :=
  fst (co_step row co (0, 0) c).

(** All five marks are present and lie between 0 and the component's
    maximum. *)
Definition marks_in_range (row : Row) : Prop :=
  forall c, exists m, marks row c = Some m /\ 0 <= m <= max_marks c.

(** A row with full marks in the mid-term and no CO tag on it. *)
Definition untagged_row : Row :=
  {| marks := fun c => Some (max_marks c);
     co_mapping := fun _ => None |}.

(** A row with the mid-term tagged to CO1 and CO2, the final to CO1. *)
Definition two_tag_row : Row :=
  {| marks := fun c => match c with mid => Some 24 | final => Some 30 | _ => None end;
     co_mapping := fun c =>
       match c with
       | mid => Some "CO1, CO2"%string
       | final => Some "CO1"%string
       | _ => None
       end |}.

(** The position of the first row of the weight matrix whose
    [Course_Outcome] is [co]. *)
Fixpoint first_row (names : list string) (co : string) : option nat :=
  match names with
  | [] => None
  | name :: rest =>
      if String.eqb name co then Some 0%nat
      else option_map S (first_row rest co)
  end.

(** [weight[co, po]]: the cell of column [po] in the first row of the
    weight matrix named [co] (0 where the matrix has no such cell). *)
Definition weight (co_po_mapping : Mapping) (co po : string) : Q :=
  match first_row (Course_Outcome co_po_mapping) co,
        weight_columns co_po_mapping !! po with
  | Some i, Some cells =>
      match cells !! i with
      | Some w => w
      | None => 0
      end
  | _, _ => 0
  end.

(** The weight matrix has the cell [weight[co, po]] for every CO of
    [co_list] and every PO of [pos]: a row named [co], the column [po], and
    the cell where they meet. *)
Definition matrix_complete (co_po_mapping : Mapping)
    (co_list pos : list string) : Prop :=
  forall co po, In co co_list -> In po pos ->
    exists i cells w,
      first_row (Course_Outcome co_po_mapping) co = Some i /\
      weight_columns co_po_mapping !! po = Some cells /\
      cells !! i = Some w.

(** [coAchievement[co]] of the student at row [idx]. *)
Definition co_achievement_of (df : DataFrame) (idx : nat) (co : string) : Q :=
  row_get df idx (achievement_col co) 0.

(** The COs of [co_list] with [weight[co, po] > 0]. *)
Definition weighted_cos (co_po_mapping : Mapping) (co_list : list string)
    (po : string) : list string :=
  List.filter (fun co => Py.gt0 (weight co_po_mapping co po)) co_list.

Definition po_numerator (df : DataFrame) (co_po_mapping : Mapping)
    (co_list : list string) (idx : nat) (po : string) : Q :=
  Py.sum (map (fun co => co_achievement_of df idx co * weight co_po_mapping co po)
              (weighted_cos co_po_mapping co_list po)).

Definition po_denominator (co_po_mapping : Mapping)
    (co_list : list string) (po : string) : Q :=
  Py.sum (map (fun co => weight co_po_mapping co po)
              (weighted_cos co_po_mapping co_list po)).

(** "attainment = numerator/denominator, or 0 if denominator is 0". *)
Definition po_attainment_spec (df : DataFrame) (co_po_mapping : Mapping)
    (co_list : list string) (idx : nat) (po : string) : Q :=
  if Qeq_bool (po_denominator co_po_mapping co_list po) 0 then 0
  else po_numerator df co_po_mapping co_list idx po
       / po_denominator co_po_mapping co_list po.

(** [df.at[idx, col]], where the column and the row exist. *)
Definition cell (df : DataFrame) (col : string) (idx : nat) : option Q :=
  match columns df !! col with
  | Some cells => cells !! idx
  | None => None
  end.

(** The cell of column [col] at row [idx] exists and holds the value [v]. *)
Definition cell_is (df : DataFrame) (col : string) (idx : nat) (v : Q) : Prop :=
  exists x, cell df col idx = Some x /\ x == v.

(** A weight table with the rows CO1 and CO2 and the twelve PO columns;
    the column PO2 is all zero. *)
Definition example_mapping : Mapping :=
  {| Course_Outcome := ["CO1"; "CO2"]%string;
     weight_columns :=
       <["PO2"%string := [0; 0]]>
         (list_to_map (map (fun po => (po, [1; 0.5])) po_list)) |}.

(** A table of two students without derived columns, and the table with no
    student at all. *)
Definition example_df : DataFrame :=
  {| rows := [two_tag_row; scenario_row]; columns := ∅ |}.

Definition empty_df : DataFrame :=
  {| rows := []; columns := ∅ |}.

(** A row with all marks in range, the mid-term tagged to two COs. *)
Definition tagged_row : Row :=
  {| marks := marks scenario_row;
     co_mapping := fun c =>
       match c with
       | mid => Some "CO1, CO2"%string
       | final => Some "CO1"%string
       | _ => Some "CO2"%string
       end |}.

Definition ranged_df : DataFrame :=
  {| rows := [tagged_row; untagged_row]; columns := ∅ |}.

(** The same table with the achievement columns of CO1 and CO2. *)
Definition achieved_df : DataFrame :=
  calculate_all_co_achievements ranged_df ["CO1"; "CO2"]%string.

(** Whitespace around the comma-separated tags. A tag string is the
    comma-joined list of its pieces; a piece is a tag (any text without a
    comma) with whitespace before and after it. *)
Fixpoint all_chars (p : ascii -> bool) (s : string) : bool :=
  match s with
  | EmptyString => true
  | String c rest => p c && all_chars p rest
  end.

Definition whitespace (s : string) : Prop := all_chars Py.isspace s = true.

Definition comma_free (s : string) : Prop :=
  all_chars (fun c => negb (Ascii.eqb c Py.comma)) s = true.

Record piece := {
  lead : string;
  tag : string;
  trail : string
}.

Definition well_padded (p : piece) : Prop :=
  whitespace (lead p) /\ comma_free (tag p) /\ whitespace (trail p).

Definition padded (p : piece) : string := (lead p ++ tag p ++ trail p)%string.

(** The tag string without, and with, the whitespace around its tags. *)
Definition bare (ps : list piece) : string := Py.join_comma (map tag ps).

Definition spaced (ps : list piece) : string := Py.join_comma (map padded ps).

(** Two cells of a [co_mapping] column that differ at most by whitespace
    around the tags. *)
Inductive same_tags : option string -> option string -> Prop :=
| same_tags_refl o : same_tags o o
| same_tags_spaced ps :
    ps <> [] -> Forall well_padded ps ->
    same_tags (Some (bare ps)) (Some (spaced ps)).

(** Two rows with the same marks and the same tags up to whitespace. *)
Definition same_up_to_whitespace (row row' : Row) : Prop :=
  (forall c, marks row c = marks row' c) /\
  (forall c, same_tags (co_mapping row c) (co_mapping row' c)).

(** A full mid-term mark and nothing else, with a given mid-term tag
    string. *)
Definition mid_only_row (tags : string) : Row :=
  {| marks := fun c => match c with mid => Some 30 | _ => None end;
     co_mapping := fun c => match c with mid => Some tags | _ => None end |}.

(** What the specification asks of the labeller (4.4): rank the three
    cluster means of grade point and name the clusters high, average and low
    by that rank, here by the number of clusters with a greater mean. *)
Definition mean_gt (a b : option Q) : bool :=
  match a, b with
  | Some x, Some y => negb (Qle_bool x y)
  | _, _ => false
  end.

Definition ranked_performance_group (cluster_analysis : gmap nat ClusterInfo)
    (cluster_id : nat) : option performance_group :=
  match cluster_analysis !! cluster_id with
  | Some info =>
      let better :=
        List.filter
          (fun k => match cluster_analysis !! k with
                    | Some other => mean_gt (avg_cgpa other) (avg_cgpa info)
                    | None => false
                    end)
          (seq 0 3) in
      Some match length better with
           | O => HighPerformer
           | 1%nat => AveragePerformer
           | _ => NeedsImprovement
           end
  | None => None
  end.

(** Three students whose marks are all 30, all 75 and all 95 (so with grade
    points 0.0, 3.0 and 4.0), with their [grade_points] and one achievement
    column, and a clustering that numbers the clusters from the weakest
    student. *)
Definition uniform_row (m : Q) : Row :=
  {| marks := fun _ => Some m; co_mapping := fun _ => Some "CO1"%string |}.

Definition graded_df : DataFrame :=
  let students := [uniform_row 30; uniform_row 75; uniform_row 95] in
  {| rows := students;
     columns :=
       <["grade_points"%string :=
           map (fun row => snd (marks_to_grade (calculate_total_marks row))) students]>
       (<["CO1_achievement"%string :=
           map (fun row => calculate_co_achievement row "CO1") students]> ∅) |}.

Definition weakest_first (feature_matrix : list (list Q)) : list nat :=
  seq 0 (length feature_matrix).

(** The same three students before grading: the achievement column
    without the column [grade_points]. *)
Definition ungraded_df : DataFrame :=
  {| rows := rows graded_df;
     columns := delete "grade_points"%string (columns graded_df) |}.

(** ** Further code of the repository *)

(** [self.grading_scale] of [CGPACalculator.__init__]. *)
Definition grading_scale : gmap string Q :=
  list_to_map
    [ ("A+", 4.0); ("A", 3.7); ("A-", 3.3);
      ("B+", 3.0); ("B", 2.7); ("B-", 2.3);
      ("C+", 2.0); ("C", 1.7); ("C-", 1.3);
      ("D+", 1.0); ("D", 0.7); ("F", 0.0) ]%string.

(** [EmailService._get_grade_class] *)
Definition _get_grade_class (grade : string) : string :=
  if Py.contains grade ["A+"; "A"; "A-"]%string then "grade-excellent"%string
  else if Py.contains grade ["B+"; "B"; "B-"]%string then "grade-good"%string
  else if Py.contains grade ["C+"; "C"; "C-"]%string then "grade-average"%string
  else "grade-poor"%string.

(** The marks of the second row are at least those of the first, a mark
    being missing in both rows or in neither. *)
Definition marks_le (row row' : Row) : Prop :=
  forall c, match marks row c, marks row' c with
            | Some m, Some m' => m <= m'
            | None, None => True
            | _, _ => False
            end.

(** The number of commas of a string. *)
Fixpoint count_commas (s : string) : nat :=
  match s with
  | EmptyString => O
  | String c rest =>
      if Ascii.eqb c Py.comma then S (count_commas rest) else count_commas rest
  end.

(** A string that does not begin with whitespace. *)
Definition starts_clean (s : string) : Prop :=
  match s with
  | EmptyString => True
  | String c _ => Py.isspace c = false
  end.

(** The column names [student_clustering] looks for, in the order of its
    two loops, and those of them that a table has. *)
Definition feature_columns (co_list pos : list string) : list string :=
  map achievement_col co_list ++ map attainment_col pos.

Definition present_columns (df : DataFrame) (cols : list string) : list string :=
  List.filter
    (fun col => match columns df !! col with Some _ => true | None => false end)
    cols.

(** What scikit-learn guarantees of the two parameters of
    [student_clustering]: the scaler keeps the number of rows, and k-means
    with [n_clusters=3] gives every row one of the labels 0, 1, 2. *)
Definition sklearn_shapes (scaler_fit_transform : list (list Q) -> list (list Q))
    (kmeans_fit_predict : list (list Q) -> list nat) : Prop :=
  (forall m, length (scaler_fit_transform m) = length m) /\
  (forall m, length (kmeans_fit_predict m) = length m /\
             Forall (fun k => (k < 3)%nat) (kmeans_fit_predict m)).

(** The labels that [student_clustering] obtains for a table, k-means on
    the scaled matrix of the feature columns that are present, and the table
    with these labels as its column [performance_cluster]. *)
Definition clustering_labels
    (scaler_fit_transform : list (list Q) -> list (list Q))
    (kmeans_fit_predict : list (list Q) -> list nat)
    (df : DataFrame) (co_list pos : list string) : list nat :=
  kmeans_fit_predict
    (scaler_fit_transform
       (column_stack (nrows df)
          (omap (fun col => columns df !! col) (feature_columns co_list pos)))).

Definition clustered_table
    (scaler_fit_transform : list (list Q) -> list (list Q))
    (kmeans_fit_predict : list (list Q) -> list nat)
    (df : DataFrame) (co_list pos : list string) : DataFrame :=
  set_column df "performance_cluster"
    (map (fun k => inject_Z (Z.of_nat k))
         (clustering_labels scaler_fit_transform kmeans_fit_predict df co_list pos)).

(** A clustering that puts every row in cluster 0. *)
Definition one_cluster (feature_matrix : list (list Q)) : list nat :=
  map (fun _ => O) feature_matrix.

(** ** class MLAnalyzer: prediction *)

Section Prediction.

(** [RandomForestRegressor.fit(X_train, y_train)] followed by
    [predict(X_predict)]: library code, a parameter of the model. *)
Variable rf_fit_predict : list (list Q) -> list Q -> list (list Q) -> list Q.

(** [df[features]] as the list of the rows of the selection; a feature
    that is not a column raises [KeyError]. *)
Fixpoint select_columns (df : DataFrame) (features : list string)
    : Py.result (list (list Q)) :=
  match features with
  | [] => Py.Ok []
  | feature :: rest =>
      match columns df !! feature with
      | None => Py.Raise Py.KeyError
      | Some cells =>
          Py.bind (select_columns df rest) (fun others => Py.Ok (cells :: others))
      end
  end.

(** [predict_performance]. The loop that collects [features] keeps the
    achievement columns of [co_list] present in [df_train]; [fillna(0)]
    does nothing on columns without NaN. *)
Definition predict_performance (df_train df_predict : DataFrame)
    (co_list : list string) : Py.result DataFrame :=
  let features := present_columns df_train (map achievement_col co_list) in
  if (length features <? 2)%nat then Py.Ok df_predict
  else
    Py.bind (select_columns df_train features) (fun X_train =>
      match columns df_train !! "grade_points"%string with
      | None => Py.Raise Py.KeyError
      | Some y_train =>
          Py.bind (select_columns df_predict features) (fun X_predict =>
            let predictions :=
              rf_fit_predict (column_stack (nrows df_train) X_train) y_train
                             (column_stack (nrows df_predict) X_predict) in
            Py.Ok (set_column df_predict "predicted_grade_points" predictions))
      end).

End Prediction.

(** ** class EmailService: suggestions *)

(** [x < bound] for a float that may be NaN. *)
Definition nan_lt (x : option Q) (bound : Q) : bool :=
  match x with Some v => negb (Qle_bool bound v) | None => false end.

(** [student_data.get(key, 0)] for the numeric entries of the dictionary
    of a student; a present entry may be NaN. *)
Definition get_number (student_data : gmap string (option Q)) (key : string)
    : option Q :=
  match student_data !! key with
  | Some value => value
  | None => Some 0
  end.

(** [_generate_suggestions]; the list is built by successive [append]s.
    The local [total_marks] of the source is read and never used. *)
Definition _generate_suggestions (student_data : gmap string (option Q))
    : list string :=
  let grade_points := get_number student_data "grade_points" in
  let suggestions : list string := [] in
  let suggestions :=
    if nan_ge grade_points 3.7 then
      suggestions ++
      ["Excellent performance! Consider pursuing advanced courses or research opportunities.";
       "Your strong foundation makes you a candidate for academic scholarships.";
       "Explore leadership roles in academic projects and competitions."]%string
    else if nan_ge grade_points 3.0 then
      suggestions ++
      ["Good performance! Focus on areas with lower scores to reach excellence.";
       "Consider joining study groups for collaborative learning.";
       "Explore internship opportunities to apply your knowledge."]%string
    else if nan_ge grade_points 2.0 then
      suggestions ++
      ["Adequate performance. Identify weak areas and seek additional help.";
       "Regular attendance and consistent study habits will improve your grades.";
       "Consider academic support services and tutoring."]%string
    else
      suggestions ++
      ["Performance needs improvement. Meet with your academic advisor.";
       "Develop a structured study plan with daily goals.";
       "Focus on fundamentals and seek help early in the semester."]%string in
  let suggestions :=
    if nan_lt (get_number student_data "attendance_marks") 4
    then suggestions ++ ["Improve your attendance - it's crucial for academic success."]%string
    else suggestions in
  let suggestions :=
    if nan_lt (get_number student_data "assignment_marks") 8
    then suggestions ++ ["Focus on completing assignments with quality and on time."]%string
    else suggestions in
  let suggestions :=
    if nan_lt (get_number student_data "ct_marks") 12
    then suggestions ++ ["Practice regularly with class tests and quizzes."]%string
    else suggestions in
  let suggestions :=
    if nan_lt (get_number student_data "mid_marks") 25
    then suggestions ++ ["Prepare better for mid-term exams with systematic study."]%string
    else suggestions in
  let suggestions :=
    if nan_lt (get_number student_data "final_marks") 35
    then suggestions ++ ["Develop comprehensive final exam preparation strategies."]%string
    else suggestions in
  if nan_ge grade_points 3.3 then
    suggestions ++
    ["Consider graduate studies or research-oriented careers.";
     "Your performance opens doors to competitive job opportunities."]%string
  else if nan_ge grade_points 2.7 then
    suggestions ++
    ["Focus on building practical skills through projects and internships.";
     "Consider professional certifications to enhance your profile."]%string
  else
    suggestions ++
    ["Focus on building fundamental skills before exploring specializations.";
     "Consider skill development workshops and online courses."]%string.

(** The five thresholds of the component-specific suggestions, and the
    number of them that a student misses. *)
Definition component_thresholds : list (string * Q) :=
  [ ("attendance_marks", 4); ("assignment_marks", 8); ("ct_marks", 12);
    ("mid_marks", 25); ("final_marks", 35) ]%string.

Definition missed_thresholds (student_data : gmap string (option Q)) : nat :=
  length (List.filter
            (fun entry => nan_lt (get_number student_data (fst entry)) (snd entry))
            component_thresholds).

(** The dictionary of the marks of a row, with its grade point. *)
Definition student_dict (mid_m final_m ct_m assignment_m attendance_m gp : Q)
    : gmap string (option Q) :=
  list_to_map
    [ ("mid_marks", Some mid_m); ("final_marks", Some final_m);
      ("ct_marks", Some ct_m); ("assignment_marks", Some assignment_m);
      ("attendance_marks", Some attendance_m); ("grade_points", Some gp) ]%string.

(** ** The same code in the interpreter's arithmetic *)

(** [calculate_co_achievement] and the loops of [calculate_po_attainment]
    over one row once more, with the two things the exact reading above
    leaves out: the arithmetic is binary64, and [row[col]] raises [KeyError]
    when the student table has no column [col]. *)
Module Binary64.

Local Open Scope float_scope.

(** One row of the student table as [df.apply] hands it over. A column of
    the table may be absent (the outer [None]); a marks cell holds a binary64
    number, NaN when it is missing; a [co_mapping] cell holds a string, or
    NaN ([None]) when it is missing. *)
Record Series := {
  marks : component -> option float;
  co_mapping : component -> option (option string)
}.

(** [self.weights] *)
Definition weights (c : component) : float :=
  match c with
  | mid => 0.30
  | final => 0.40
  | ct => 0.15
  | assignment => 0.10
  | attendance => 0.05
  end.

(** [co_weightage[component]['max_marks']] *)
Definition max_marks (c : component) : float :=
  match c with
  | mid => 30
  | final => 40
  | ct => 15
  | assignment => 10
  | attendance => 5
  end.

(** [len(cos)] as a float (exact for every list that fits in memory). *)
Fixpoint len (cos : list string) : float :=
  match cos with
  | [] => 0
  | _ :: rest => len rest + 1
  end.

Definition weighted_score (m : float) (cos : list string) (c : component)
    : float :=
  let co_share := if (0 <? length cos)%nat then m / len cos else m in
  (co_share / max_marks c) * weights c * 100.

(** One iteration of the loop over the components. [row[marks_col]] is read
    first; [row[co_col]] is read only when the mark is not NaN. *)
Definition co_step (row : Series) (co_name : string)
    (acc : float * float) (c : component) : Py.result (float * float) :=
  match marks row c with
  | None => Py.Raise Py.KeyError
  | Some m =>
      if is_nan m then Py.Ok acc
      else
        match co_mapping row c with
        | None => Py.Raise Py.KeyError
        | Some None => Py.Ok acc
        | Some (Some s) =>
            let cos := parse_co_mapping (Some s) in
            if Py.contains co_name cos then
              Py.Ok (fst acc + weighted_score m cos c,
                     snd acc + weights c * 100)
            else Py.Ok acc
        end
  end.

Fixpoint co_loop (row : Series) (co_name : string) (cs : list component)
    (acc : float * float) : Py.result (float * float) :=
  match cs with
  | [] => Py.Ok acc
  | c :: rest =>
      Py.bind (co_step row co_name acc c) (co_loop row co_name rest)
  end.

Definition calculate_co_achievement (row : Series) (co_name : string)
    : Py.result float :=
  Py.bind (co_loop row co_name components (0, 0)) (fun acc =>
    let '(total_co_score, total_weighted_score) := acc in
    Py.Ok (if 0 <? total_weighted_score
           then total_co_score / total_weighted_score * 100
           else 0)).

(** The CO-PO mapping sheet with binary64 cells. *)
Record Mapping := {
  Course_Outcome : list string;
  weight_columns : gmap string (list float)
}.

Fixpoint loc_mask (names : list string) (cells : list float) (co : string)
    : list float :=
  match names, cells with
  | name :: names', v :: cells' =>
      if String.eqb name co then v :: loc_mask names' cells' co
      else loc_mask names' cells' co
  | _, _ => []
  end.

Definition lookup_weight (co_po_mapping : Mapping) (co po : string)
    : Py.result float :=
  match weight_columns co_po_mapping !! po with
  | None => Py.Raise Py.KeyError
  | Some cells =>
      match loc_mask (Course_Outcome co_po_mapping) cells co with
      | [] => Py.Raise Py.IndexError
      | co_weight :: _ => Py.Ok co_weight
      end
  end.

(** [row.get(col, default)] on the derived cells of one row. *)
Definition row_get (derived : gmap string float) (col : string)
    (default : float) : float :=
  match derived !! col with
  | Some v => v
  | None => default
  end.

(** The loop [for co in co_list] for one row and one PO. *)
Fixpoint po_co_loop (co_po_mapping : Mapping) (get : string -> float -> float)
    (po : string) (co_list : list string) (acc : float * float)
    : Py.result (float * float) :=
  match co_list with
  | [] => Py.Ok acc
  | co :: rest =>
      Py.bind (lookup_weight co_po_mapping co po) (fun co_weight =>
        if 0 <? co_weight then
          let co_achievement := get (achievement_col co) 0 in
          po_co_loop co_po_mapping get po rest
            (fst acc + co_achievement * co_weight, snd acc + co_weight)
        else po_co_loop co_po_mapping get po rest acc)
  end.


(** The row has the five marks columns and the five [co_mapping] columns. *)
Definition has_columns (row : Series) : Prop :=
  forall c, marks row c <> None /\ co_mapping row c <> None.

(** A component maps to a CO: its mark and its tag string are present and
    the tag list contains the CO. *)
Definition maps_to (row : Series) (co : string) (c : component) : bool :=
  match marks row c, co_mapping row c with
  | Some m, Some (Some s) =>
      negb (is_nan m) && Py.contains co (parse_co_mapping (Some s))
  | _, _ => false
  end.

Definition mapped_components (row : Series) (co : string) : list component :=
  List.filter (maps_to row co) components.

Definition mark_of (row : Series) (c : component) : float :=
  match marks row c with
  | Some m => m
  | None => nan
  end.

Definition tags_of (row : Series) (c : component) : list string :=
  match co_mapping row c with
  | Some tags => parse_co_mapping tags
  | None => []
  end.

(** A sum accumulated from 0 in the order of the list, as [+=] does. *)
Definition running_sum (xs : list float) : float := fold_left add xs 0.

(** The two running sums of the code: the shares and the weights of the
    mapped components, each times 100. *)
Definition total_co_score (row : Series) (co : string) : float :=
  running_sum
    (map (fun c => ((mark_of row c / len (tags_of row c)) / max_marks c)
                   * weights c * 100)
         (mapped_components row co)).

Definition total_weighted_score (row : Series) (co : string) : float :=
  running_sum (map (fun c => weights c * 100) (mapped_components row co)).

Definition co_achievement_scaled (row : Series) (co : string) : float :=
  match mapped_components row co with
  | [] => 0
  | _ => total_co_score row co / total_weighted_score row co * 100
  end.

(** The value as C1 words it: the shares and the weights accumulated without
    the factor 100. *)
Definition co_achievement_claimed (row : Series) (co : string) : float :=
  match mapped_components row co with
  | [] => 0
  | mapped =>
      running_sum
        (map (fun c => ((mark_of row c / len (tags_of row c)) / max_marks c)
                       * weights c) mapped)
      / running_sum (map weights mapped) * 100
  end.

(** What the loop adds to [total_co_score] at component [c] for the CO. *)
Definition co_contribution (row : Series) (c : component) (co : string)
    : Py.result float :=
  Py.bind (co_step row co (0, 0) c) (fun acc => Py.Ok (fst acc)).




(** The students of the repository's template ([create_excel_template.py]):
    their marks and the tag strings of the four tagged components. The
    template has no [attendance_co_mapping] column; [attendance_tags] is that
    cell where the table is given the column. *)
Definition template_row (mid_m final_m ct_m assignment_m attendance_m : float)
    (attendance_tags : option (option string)) : Series :=
  {| marks := fun c =>
       Some match c with
            | mid => mid_m | final => final_m | ct => ct_m
            | assignment => assignment_m | attendance => attendance_m
            end;
     co_mapping := fun c =>
       match c with
       | mid => Some (Some "CO1,CO2"%string)
       | final => Some (Some "CO1,CO2,CO3"%string)
       | ct => Some (Some "CO1"%string)
       | assignment => Some (Some "CO2,CO3"%string)
       | attendance => attendance_tags
       end |}.

Definition template_student_1 := template_row 25 35 12 8 4.
Definition template_student_2 := template_row 28 38 14 9 5.
Definition template_student_3 := template_row 22 30 10 7 3.





(** The student table: the rows with their input cells, and the derived
    columns by name. *)
Record DataFrame := {
  rows : list Series;
  columns : gmap string (list float)
}.

(** [df.apply(f, axis=1)] on a table with at least one row: [f] on every
    row in order; the first exception propagates. *)
Fixpoint apply_rows (f : Series -> Py.result float) (rs : list Series)
    : Py.result (list float) :=
  match rs with
  | [] => Py.Ok []
  | r :: rest =>
      Py.bind (f r) (fun v =>
        Py.bind (apply_rows f rest) (fun vs => Py.Ok (v :: vs)))
  end.

Definition set_column (df : DataFrame) (col : string) (values : list float)
    : DataFrame :=
  {| rows := rows df; columns := <[col := values]> (columns df) |}.

Fixpoint calculate_all_co_achievements (df : DataFrame)
    (co_list : list string) : Py.result DataFrame :=
  match co_list with
  | [] => Py.Ok df
  | co :: rest =>
      Py.bind
        (apply_rows (fun row => calculate_co_achievement row co) (rows df))
        (fun cells =>
           calculate_all_co_achievements
             (set_column df (achievement_col co) cells) rest)
  end.

(** The three students of the template, as the template lays the table
    out, without an [attendance_co_mapping] column, and with that column
    added and left empty. *)
Definition template_df : DataFrame :=
  {| rows := [template_student_1 None; template_student_2 None;
              template_student_3 None];
     columns := ∅ |}.

Definition completed_template_df : DataFrame :=
  {| rows := [template_student_1 (Some None); template_student_2 (Some None);
              template_student_3 (Some None)];
     columns := ∅ |}.

End Binary64.

(** * Proof automation *)

(** Case analysis on every disjunction among the hypotheses, as produced by
    membership in a literal list or by a partition into intervals. *)
Ltac destruct_ors :=
  repeat match goal with
  | H : _ \/ _ |- _ => destruct H as [H | H]
  end.

(** * Grading *)

Section Grading.

Lemma nan_ge_true v b : nan_ge (Some v) b = true <-> b <= v.
Proof. apply Qle_bool_iff. Qed.

Lemma nan_ge_false v b : nan_ge (Some v) b = false <-> v < b.
Proof.
  simpl. rewrite <- not_true_iff_false, Qle_bool_iff. split; lra.
Qed.

Lemma gt0_true x : Py.gt0 x = true <-> 0 < x.
Proof.
  unfold Py.gt0. rewrite negb_true_iff, <- not_true_iff_false, Qle_bool_iff.
  split; lra.
Qed.

Lemma gt0_false x : Py.gt0 x = false <-> x <= 0.
Proof. unfold Py.gt0. rewrite negb_false_iff. apply Qle_bool_iff. Qed.

(** The [if]/[elif] chain, read as a partition of the rationals. *)
Lemma marks_to_grade_intervals (v : Q) :
  let r := marks_to_grade (Some v) in
  (90 <= v /\ r = ("A+", 4.0)) \/ (85 <= v < 90 /\ r = ("A", 3.7)) \/
  (80 <= v < 85 /\ r = ("A-", 3.3)) \/ (75 <= v < 80 /\ r = ("B+", 3.0)) \/
  (70 <= v < 75 /\ r = ("B", 2.7)) \/ (65 <= v < 70 /\ r = ("B-", 2.3)) \/
  (60 <= v < 65 /\ r = ("C+", 2.0)) \/ (55 <= v < 60 /\ r = ("C", 1.7)) \/
  (50 <= v < 55 /\ r = ("C-", 1.3)) \/ (45 <= v < 50 /\ r = ("D+", 1.0)) \/
  (40 <= v < 45 /\ r = ("D", 0.7)) \/ (v < 40 /\ r = ("F", 0.0)).
Proof.
  unfold marks_to_grade.
  repeat match goal with
  | |- context [if nan_ge (Some v) ?b then _ else _] =>
      let E := fresh "E" in
      destruct (nan_ge (Some v) b) eqn:E;
      [ apply nan_ge_true in E | apply nan_ge_false in E ]
  end; cbv zeta; tauto.
Qed.

End Grading.

(** C4. [marks_to_grade] implements the breakpoint table with inclusive
    lower bounds, the highest bound reached winning: a percentage whose
    highest reached bound is [b] gets the grade and grade point listed for
    [b]; a percentage that reaches no bound, or is missing, gets F / 0.0.
    In particular 90.0 gives A+ / 4.0 and 89.999 gives A / 3.7. *)
Theorem marks_to_grade_breakpoints :
  (forall v b g,
      In (b, g) breakpoints -> highest_match v b ->
      marks_to_grade (Some v) = g) /\
  (forall v,
      (forall b g, In (b, g) breakpoints -> v < b) ->
      marks_to_grade (Some v) = ("F"%string, 0.0)) /\
  marks_to_grade None = ("F"%string, 0.0) /\
  marks_to_grade (Some 90.0) = ("A+"%string, 4.0) /\
  marks_to_grade (Some 89.999) = ("A"%string, 3.7).
Proof.
  split; [| split; [| repeat split]].
  - intros v b g Hin [Hle Hmax].
    assert (Hall : Forall (fun e => fst e <= v -> fst e <= b) breakpoints).
    { apply List.Forall_forall. intros [b' g'] Hin'. simpl. eauto. }
    unfold breakpoints in Hall.
    repeat match goal with
    | H : Forall _ (_ :: _) |- _ =>
        apply Forall_cons_1 in H; destruct H as [? H]
    end.
    simpl in *.
    pose proof (marks_to_grade_intervals v) as Hcases. cbv zeta in Hcases.
    destruct_ors;
      try contradiction;
      match goal with
      | H : (_, _) = (b, g) |- _ => inversion H; subst; clear H
      end;
      match goal with
      | H : _ /\ marks_to_grade _ = _ |- _ =>
          destruct H as [Hrange ->]
      end;
      first [ reflexivity | exfalso; lra ].
  - intros v Hnone.
    pose proof (Hnone 40 _ ltac:(unfold breakpoints; do 10 right; left; reflexivity)).
    pose proof (marks_to_grade_intervals v) as Hcases. cbv zeta in Hcases.
    destruct_ors;
      match goal with
      | H : _ /\ marks_to_grade _ = _ |- _ => destruct H as [Hrange ->]
      end;
      first [ reflexivity | exfalso; lra ].
Qed.

Lemma marks_to_grade_breakpoints_witness :
  marks_to_grade (Some 72) = ("B"%string, 2.7).
Proof.
  apply (proj1 marks_to_grade_breakpoints 72 70).
  - unfold breakpoints. do 4 right. left. reflexivity.
  - split; [unfold Qle; simpl; lia |].
    intros b g Hin Hb. unfold breakpoints in Hin. simpl in Hin.
    destruct_ors; try contradiction;
      match goal with
      | H : (_, _) = (b, g) |- _ => inversion H; subst; clear H
      end; lra.
Defined.

(** C5. [calculate_total_marks] is the weighted sum
    0.30*mid + 0.40*final + 0.15*ct + 0.10*assignment + 0.05*attendance of the
    raw marks, not divided by the component maxima (a missing mark makes the
    total missing); on the documented scenario the total is 24.3 and the
    grade is F. *)
Theorem calculate_total_marks_weighted_sum :
  (forall row m f c a t,
      marks row mid = Some m -> marks row final = Some f ->
      marks row ct = Some c -> marks row assignment = Some a ->
      marks row attendance = Some t ->
      exists total,
        calculate_total_marks row = Some total /\
        total == 0.30 * m + 0.40 * f + 0.15 * c + 0.10 * a + 0.05 * t) /\
  (forall row c, marks row c = None -> calculate_total_marks row = None) /\
  (exists total,
      calculate_cgpa_for_student scenario_row = (Some total, "F"%string, 0.0) /\
      total == 24.3).
Proof.
  split; [| split].
  - intros row m f c a t Hm Hf Hc Ha Ht.
    unfold calculate_total_marks. rewrite Hm, Hf, Hc, Ha, Ht. simpl.
    eexists. split; [reflexivity |]. ring.
  - intros row c Hc. unfold calculate_total_marks.
    destruct c; rewrite Hc; simpl;
      repeat match goal with
      | |- context [marks row ?c'] => destruct (marks row c')
      end; reflexivity.
  - eexists. split; [reflexivity |]. reflexivity.
Qed.

(** The total of the scenario is not the percentage that dividing each mark
    by its maximum would give. *)
Lemma scenario_total_not_normalised :
  exists total,
    calculate_total_marks scenario_row = Some total /\
    ~ total == Py.sum (map (fun c => mark_of scenario_row c / max_marks c
                                     * weights c * 100) components).
Proof.
  eexists. split; [reflexivity |]. vm_compute. discriminate.
Qed.

Lemma calculate_total_marks_weighted_sum_witness :
  exists total,
    calculate_total_marks scenario_row = Some total /\
    total == 0.30 * 25 + 0.40 * 35 + 0.15 * 12 + 0.10 * 8 + 0.05 * 4.
Proof.
  exact (proj1 calculate_total_marks_weighted_sum scenario_row 25 35 12 8 4
           eq_refl eq_refl eq_refl eq_refl eq_refl).
Defined.

(** * CO achievement *)

Section COAchievement.

Variable row : Row.
Variable co_name : string.

Lemma weights_pos c : 0 < weights c.
Proof. destruct c; reflexivity. Qed.

Lemma max_marks_pos c : 0 < max_marks c.
Proof. destruct c; reflexivity. Qed.

Lemma contains_nonempty x xs : Py.contains x xs = true -> (0 < length xs)%nat.
Proof. destruct xs; simpl; [discriminate | lia]. Qed.

Lemma len_pos xs : (0 < length xs)%nat -> 0 < len xs.
Proof.
  intros H. unfold len, Qlt. simpl. lia.
Qed.

(** What one iteration adds to the two accumulators. *)
Lemma co_step_mapped c s w :
  maps_to row co_name c = true ->
  fst (co_step row co_name (s, w) c)
    == s + 100 * (((mark_of row c / tag_count row c) / max_marks c) * weights c)
  /\ snd (co_step row co_name (s, w) c) == w + 100 * weights c.
Proof.
  unfold maps_to, co_step, mark_of, tag_count. intros H.
  destruct (marks row c) as [m |]; [| discriminate].
  destruct (co_mapping row c) as [tags |]; [| discriminate].
  cbv zeta. rewrite H. cbn [fst snd]. unfold weighted_score.
  apply contains_nonempty in H.
  destruct (Nat.ltb_spec 0 (length (parse_co_mapping (Some tags)))); [| lia].
  split; unfold Qdiv; ring.
Qed.

Lemma co_step_unmapped c acc :
  maps_to row co_name c = false -> co_step row co_name acc c = acc.
Proof.
  unfold maps_to, co_step. intros H. destruct acc as [s w].
  destruct (marks row c); [| reflexivity].
  destruct (co_mapping row c); [| reflexivity].
  cbv zeta. rewrite H. reflexivity.
Qed.

(** The loop computes 100 times the two sums of the specification. *)
Lemma co_loop_sums (cs : list component) s w :
  let mapped := List.filter (maps_to row co_name) cs in
  let r := fold_left (co_step row co_name) cs (s, w) in
  fst r == s + 100 * Py.sum (map (fun c =>
             ((mark_of row c / tag_count row c) / max_marks c) * weights c) mapped)
  /\ snd r == w + 100 * Py.sum (map weights mapped).
Proof.
  revert s w. induction cs as [| c cs IH]; intros s w; cbv zeta.
  - simpl. split; ring.
  - cbn [fold_left List.filter].
    destruct (maps_to row co_name c) eqn:Hc.
    + destruct (co_step_mapped c s w Hc) as [Hs Hw].
      destruct (co_step row co_name (s, w) c) as [s' w'].
      simpl in Hs, Hw.
      destruct (IH s' w') as [IHs IHw]. cbv zeta in IHs, IHw.
      rewrite IHs, IHw, Hs, Hw. simpl. split; ring.
    + rewrite co_step_unmapped by assumption. apply IH.
Qed.

Lemma sum_weights_pos (cs : list component) :
  cs <> [] -> 0 < Py.sum (map weights cs).
Proof.
  induction cs as [| c [| c' cs] IH]; intros Hne; [congruence | |].
  - simpl. pose proof (weights_pos c). lra.
  - change (0 < weights c + Py.sum (map weights (c' :: cs))).
    pose proof (weights_pos c). assert (c' :: cs <> []) by discriminate.
    specialize (IH ltac:(assumption)). lra.
Qed.

Lemma calculate_co_achievement_unmapped :
  mapped_components row co_name = [] ->
  calculate_co_achievement row co_name = 0.
Proof.
  unfold mapped_components, calculate_co_achievement, components. intros Hnone.
  assert (Hall : forall c, maps_to row co_name c = false).
  { intros c. destruct (maps_to row co_name c) eqn:E; [| reflexivity].
    assert (Hin : In c (List.filter (maps_to row co_name) components)).
    { apply filter_In. split; [destruct c; simpl; tauto | assumption]. }
    unfold components in Hin. rewrite Hnone in Hin. destruct Hin. }
  cbn [fold_left]. rewrite !co_step_unmapped by apply Hall. reflexivity.
Qed.

Lemma calculate_co_achievement_refines :
  calculate_co_achievement row co_name == co_achievement_spec row co_name.
Proof.
  unfold co_achievement_spec.
  destruct (mapped_components row co_name) as [| c0 cs0] eqn:Hmapped.
  - rewrite calculate_co_achievement_unmapped by assumption. reflexivity.
  - unfold calculate_co_achievement, co_numerator, co_denominator.
    destruct (co_loop_sums components 0 0) as [Hs Hw]. cbv zeta in Hs, Hw.
    fold (mapped_components row co_name) in Hs, Hw.
    destruct (fold_left (co_step row co_name) components (0, 0)) as [s w].
    simpl in Hs, Hw.
    assert (Hpos : 0 < Py.sum (map weights (mapped_components row co_name))).
    { apply sum_weights_pos. rewrite Hmapped. discriminate. }
    destruct (Py.gt0 w) eqn:Hgt.
    + rewrite Hs, Hw. field. lra.
    + apply gt0_false in Hgt. lra.
Qed.

End COAchievement.

(** * CO achievement in binary64 *)

Section Binary64Achievement.

Variable row : Binary64.Series.
Variable co_name : string.

Lemma binary64_co_step_unmapped c acc :
  Binary64.marks row c <> None ->
  (forall m, Binary64.marks row c = Some m -> PrimFloat.is_nan m = false ->
             Binary64.co_mapping row c <> None) ->
  Binary64.maps_to row co_name c = false ->
  Binary64.co_step row co_name acc c = Py.Ok acc.
Proof.
  unfold Binary64.maps_to, Binary64.co_step. intros Hm Hc H.
  destruct (Binary64.marks row c) as [m |]; [| congruence].
  destruct (PrimFloat.is_nan m) eqn:Hnan; [reflexivity |].
  specialize (Hc m eq_refl Hnan).
  destruct (Binary64.co_mapping row c) as [[s |] |]; [| reflexivity | congruence].
  cbn [negb andb] in H. cbv zeta. rewrite H. reflexivity.
Qed.

Lemma binary64_co_step_mapped c acc :
  Binary64.maps_to row co_name c = true ->
  Binary64.co_step row co_name acc c
  = Py.Ok (PrimFloat.add (fst acc)
             (PrimFloat.mul (PrimFloat.mul
                (PrimFloat.div
                   (PrimFloat.div (Binary64.mark_of row c)
                      (Binary64.len (Binary64.tags_of row c)))
                   (Binary64.max_marks c))
                (Binary64.weights c)) 100%float),
           PrimFloat.add (snd acc)
             (PrimFloat.mul (Binary64.weights c) 100%float)).
Proof.
  unfold Binary64.maps_to, Binary64.co_step, Binary64.mark_of, Binary64.tags_of.
  intros H.
  destruct (Binary64.marks row c) as [m |]; [| discriminate].
  destruct (Binary64.co_mapping row c) as [[s |] |]; try discriminate.
  apply andb_prop in H. destruct H as [Hnan Hin].
  apply negb_true_iff in Hnan. rewrite Hnan. cbv zeta. rewrite Hin.
  unfold Binary64.weighted_score.
  apply contains_nonempty in Hin.
  destruct (Nat.ltb_spec 0 (length (parse_co_mapping (Some s)))); [| lia].
  reflexivity.
Qed.

(** The loop over the components leaves the two running sums of the mapped
    components in its accumulators. *)
Lemma binary64_co_loop_sums (cs : list component) acc :
  Binary64.has_columns row ->
  let mapped := List.filter (Binary64.maps_to row co_name) cs in
  Binary64.co_loop row co_name cs acc
  = Py.Ok
      (fold_left PrimFloat.add
         (map (fun c =>
                 PrimFloat.mul (PrimFloat.mul
                   (PrimFloat.div
                      (PrimFloat.div (Binary64.mark_of row c)
                         (Binary64.len (Binary64.tags_of row c)))
                      (Binary64.max_marks c))
                   (Binary64.weights c)) 100%float) mapped) (fst acc),
       fold_left PrimFloat.add
         (map (fun c => PrimFloat.mul (Binary64.weights c) 100%float) mapped)
         (snd acc)).
Proof.
  intros Hcols. cbv zeta. revert acc.
  induction cs as [| c cs IH]; intros acc.
  - destruct acc. reflexivity.
  - cbn [Binary64.co_loop List.filter].
    destruct (Binary64.maps_to row co_name c) eqn:Hc.
    + rewrite binary64_co_step_mapped by assumption. cbn [Py.bind].
      rewrite IH. reflexivity.
    + rewrite binary64_co_step_unmapped; [| apply Hcols | | assumption].
      * cbn [Py.bind]. apply IH.
      * intros _ _ _. apply Hcols.
Qed.

End Binary64Achievement.

(** The weights of any non-empty selection of components add up, in
    binary64 and times 100, to a positive number. *)
Lemma binary64_total_weighted_score_pos (p : component -> bool) :
  List.filter p components <> [] ->
  PrimFloat.ltb 0%float
    (Binary64.running_sum
       (map (fun c => PrimFloat.mul (Binary64.weights c) 100%float)
            (List.filter p components))) = true.
Proof.
  unfold components. cbn [List.filter].
  destruct (p mid), (p final), (p ct), (p assignment), (p attendance);
    intros H; try congruence; vm_compute; reflexivity.
Qed.

Lemma binary64_calculate_co_achievement_scaled row co_name :
  Binary64.has_columns row ->
  Binary64.calculate_co_achievement row co_name
  = Py.Ok (Binary64.co_achievement_scaled row co_name).
Proof.
  intros Hcols. unfold Binary64.calculate_co_achievement.
  rewrite (binary64_co_loop_sums row co_name components (0%float, 0%float) Hcols).
  cbn [Py.bind fst snd].
  unfold Binary64.co_achievement_scaled, Binary64.total_co_score,
    Binary64.total_weighted_score, Binary64.mapped_components,
    Binary64.running_sum.
  destruct (List.filter (Binary64.maps_to row co_name) components)
    as [| c0 cs0] eqn:Hmapped.
  - reflexivity.
  - rewrite <- Hmapped.
    pose proof (binary64_total_weighted_score_pos (Binary64.maps_to row co_name))
      as Hpos.
    unfold Binary64.running_sum in Hpos. rewrite Hpos; [reflexivity |].
    rewrite Hmapped. discriminate.
Qed.


Lemma template_student_has_columns m f c a t tags :
  Binary64.has_columns (Binary64.template_row m f c a t (Some tags)).
Proof. intros x. destruct x; split; discriminate. Defined.

(** C1, as the code has it. For a row that has the five marks columns and
    the five [co_mapping] columns, [calculate_co_achievement] returns
    total_co_score / total_weighted_score * 100 where, over the components
    whose mark and tag string are present and whose tag list contains the
    CO, in the order of the loop, total_co_score accumulates
    ((mark / tagCount) / componentMax) * componentWeight * 100 and
    total_weighted_score accumulates componentWeight * 100, all in binary64;
    it returns exactly 0 when no component maps to the CO; and a component
    with a missing mark, or a missing or empty tag string, leaves both
    running sums as they are. In exact arithmetic the factor 100 cancels
    and the value is numerator / denominator * 100 of the two sums without
    that factor. *)
Theorem calculate_co_achievement_weighted_average :
  forall (row : Binary64.Series) (co_name : string),
    Binary64.has_columns row ->
    Binary64.calculate_co_achievement row co_name
      = Py.Ok (Binary64.co_achievement_scaled row co_name) /\
    (Binary64.mapped_components row co_name = [] ->
     Binary64.calculate_co_achievement row co_name = Py.Ok 0%float) /\
    (forall c acc,
        (exists m, Binary64.marks row c = Some m /\ PrimFloat.is_nan m = true) \/
        Binary64.co_mapping row c = Some None \/
        Binary64.co_mapping row c = Some (Some EmptyString) ->
        Binary64.co_step row co_name acc c = Py.Ok acc) /\
    (forall exact_row : Row,
        calculate_co_achievement exact_row co_name
          == co_achievement_spec exact_row co_name).
Proof.
  intros row co_name Hcols.
  pose proof (binary64_calculate_co_achievement_scaled row co_name Hcols) as Hrun.
  split; [exact Hrun |]. split; [| split].
  - intros Hnone. rewrite Hrun. unfold Binary64.co_achievement_scaled.
    now rewrite Hnone.
  - intros c acc H. destruct (Hcols c) as [Hm Hc].
    apply binary64_co_step_unmapped; [assumption | intros; assumption |].
    unfold Binary64.maps_to.
    destruct H as [(m & -> & Hnan) | [-> | ->]].
    + rewrite Hnan. now destruct (Binary64.co_mapping row c) as [[s |] |].
    + now destruct (Binary64.marks row c).
    + destruct (Binary64.marks row c) as [m |]; [| reflexivity].
      cbn. apply andb_false_r.
  - intros exact_row. apply calculate_co_achievement_refines.
Qed.

Lemma calculate_co_achievement_weighted_average_witness :
  Binary64.calculate_co_achievement
    (Binary64.template_student_1 (Some None)) "CO3"
  = Py.Ok 31.333333333333336%float /\
  Binary64.calculate_co_achievement
    (Binary64.template_student_1 (Some None)) "CO4"
  = Py.Ok 0%float.
Proof.
  pose proof (fun co =>
    calculate_co_achievement_weighted_average
      (Binary64.template_student_1 (Some None)) co
      (template_student_has_columns _ _ _ _ _ None)) as H.
  split.
  - exact (proj1 (H "CO3"%string)).
  - apply (proj1 (proj2 (H "CO4"%string))). reflexivity.
Defined.

(** C1 as stated fails on the second student of the repository's template
    (marks 28, 38, 14, 9, 5), the table completed with an empty
    [attendance_co_mapping] column: for CO2 the code returns
    38.958333333333329, while the sums without the factor 100 give
    38.958333333333336. On the template as it is, without that column, the
    call does not return: [row['attendance_co_mapping']] raises
    [KeyError]. *)
Lemma calculate_co_achievement_claimed_counterexample :
  Binary64.calculate_co_achievement
    (Binary64.template_student_2 (Some None)) "CO2"
  = Py.Ok 38.958333333333329%float /\
  Binary64.co_achievement_claimed
    (Binary64.template_student_2 (Some None)) "CO2"
  = 38.958333333333336%float /\
  PrimFloat.eqb 38.958333333333329 38.958333333333336 = false /\
  Binary64.calculate_co_achievement (Binary64.template_student_2 None) "CO2"
  = Py.Raise Py.KeyError.
Proof. repeat split. Qed.

(** * Share splitting and the range of an achievement *)








(** A repeated tag is counted in [tagCount] each time it occurs, while the
    CO receives its share once: with the tag string "CO1,CO1" the mid-term
    contributes 15 to CO1, half of its single-CO contribution. *)
Lemma share_splitting_repeated_tag :
  parse_co_mapping (co_mapping (mid_only_row "CO1,CO1") mid) = ["CO1"; "CO1"]%string /\
  co_contribution (mid_only_row "CO1,CO1") mid "CO1" == 15 /\
  (30 / max_marks mid) * weights mid * 100 == 30.
Proof. repeat split. Qed.







(** * Column names *)

Lemma list_ascii_of_string_app (s t : string) :
  list_ascii_of_string (s ++ t) = list_ascii_of_string s ++ list_ascii_of_string t.
Proof. induction s as [| c s IH]; simpl; [reflexivity | now rewrite IH]. Qed.

Lemma list_ascii_of_string_inj (s t : string) :
  list_ascii_of_string s = list_ascii_of_string t -> s = t.
Proof.
  intros H. rewrite <- (string_of_list_ascii_of_string s),
    <- (string_of_list_ascii_of_string t). now rewrite H.
Qed.

(** [f'{x}_achievement'] and [f'{x}_attainment'] determine [x]. *)
Lemma achievement_col_inj co co' :
  achievement_col co = achievement_col co' -> co = co'.
Proof.
  unfold achievement_col. intros H.
  apply (f_equal list_ascii_of_string) in H.
  rewrite !list_ascii_of_string_app in H.
  apply app_inv_tail in H. now apply list_ascii_of_string_inj.
Qed.

Lemma attainment_col_inj po po' :
  attainment_col po = attainment_col po' -> po = po'.
Proof.
  unfold attainment_col. intros H.
  apply (f_equal list_ascii_of_string) in H.
  rewrite !list_ascii_of_string_app in H.
  apply app_inv_tail in H. now apply list_ascii_of_string_inj.
Qed.

(** An achievement column is never an attainment column: read from the end,
    the two suffixes differ at their fifth character. *)
Lemma achievement_col_not_attainment co po :
  achievement_col co <> attainment_col po.
Proof.
  unfold achievement_col, attainment_col. intros H.
  apply (f_equal list_ascii_of_string) in H.
  rewrite !list_ascii_of_string_app in H.
  apply (f_equal (@rev ascii)) in H.
  rewrite !rev_app_distr in H. simpl in H. congruence.
Qed.

Lemma po_list_NoDup : NoDup po_list.
Proof. apply (bool_decide_unpack _). vm_compute. reflexivity. Qed.

Lemma po_list_names :
  po_list = ["PO1"; "PO2"; "PO3"; "PO4"; "PO5"; "PO6";
             "PO7"; "PO8"; "PO9"; "PO10"; "PO11"; "PO12"]%string.
Proof. reflexivity. Qed.

(** * PO attainment *)

Lemma cell_set_at_eq df idx col v x :
  cell df col idx = Some x -> cell (set_at df idx col v) col idx = Some v.
Proof.
  unfold cell, set_at. simpl. rewrite lookup_alter_eq.
  destruct (columns df !! col) as [cells |]; [| discriminate]. simpl.
  intros H. apply list_lookup_insert_eq. eapply lookup_lt_Some, H.
Qed.

Lemma cell_set_at_ne df idx col v col' idx' :
  col <> col' \/ idx <> idx' ->
  cell (set_at df idx col v) col' idx' = cell df col' idx'.
Proof.
  unfold cell, set_at. simpl. intros H.
  destruct (decide (col = col')) as [<- | Hcol].
  - destruct H as [H | H]; [congruence |].
    rewrite lookup_alter_eq.
    destruct (columns df !! col) as [cells |]; [| reflexivity]. simpl.
    now apply list_lookup_insert_ne.
  - now rewrite lookup_alter_ne.
Qed.

Lemma columns_set_at_ne df idx col v col' :
  col <> col' -> columns (set_at df idx col v) !! col' = columns df !! col'.
Proof. intros H. unfold set_at. simpl. now rewrite lookup_alter_ne. Qed.

Lemma cell_columns_eq df df' col idx :
  columns df' !! col = columns df !! col -> cell df' col idx = cell df col idx.
Proof. unfold cell. now intros ->. Qed.

(** The lookup [.loc[mask, po].iloc[0]] finds the cell of the first row
    named [co]. *)
Lemma loc_mask_first_row names cells co w :
  (exists rest, loc_mask names cells co = w :: rest) <->
  (exists i, first_row names co = Some i /\ cells !! i = Some w).
Proof.
  revert cells. induction names as [| name names IH]; intros cells.
  - split; [intros [rest H] | intros (i & H & _)].
    + destruct cells; discriminate.
    + discriminate.
  - destruct cells as [| v cells].
    + split; [intros [rest H]; discriminate |].
      intros (i & _ & H). destruct i; discriminate.
    + cbn [loc_mask first_row]. destruct (String.eqb name co).
      * split.
        -- intros [rest H]. exists 0%nat. split; [reflexivity |].
           simpl. congruence.
        -- intros (i & Hi & Hw). injection Hi as <-. simpl in Hw.
           injection Hw as ->. eauto.
      * rewrite IH. split.
        -- intros (i & Hi & Hw). exists (S i). rewrite Hi. split; [reflexivity | exact Hw].
        -- intros (i & Hi & Hw).
           destruct (first_row names co) as [j |]; [| discriminate].
           injection Hi as <-. exists j. split; [reflexivity | exact Hw].
Qed.

Lemma lookup_weight_cell M co po w :
  lookup_weight M co po = Py.Ok w <->
  exists i cells,
    first_row (Course_Outcome M) co = Some i /\
    weight_columns M !! po = Some cells /\
    cells !! i = Some w.
Proof.
  unfold lookup_weight.
  destruct (weight_columns M !! po) as [cells |].
  - split.
    + intros H.
      destruct (loc_mask (Course_Outcome M) cells co) as [| w0 rest] eqn:E;
        [discriminate |].
      injection H as ->.
      destruct (proj1 (loc_mask_first_row _ _ _ _) (ex_intro _ rest E))
        as (i & Hi & Hw).
      exists i, cells. auto.
    + intros (i & cells' & Hi & Hcells & Hw). injection Hcells as <-.
      destruct (proj2 (loc_mask_first_row _ _ _ _) (ex_intro _ i (conj Hi Hw)))
        as [rest ->].
      reflexivity.
  - split; [discriminate |]. intros (i & cells & _ & H & _). discriminate.
Qed.

Lemma matrix_complete_lookups M co_list pos :
  matrix_complete M co_list pos <->
  (forall co po, In co co_list -> In po pos ->
     exists w, lookup_weight M co po = Py.Ok w).
Proof.
  split; intros H co po Hco Hpo.
  - destruct (H co po Hco Hpo) as (i & cells & w & Hi & Hcells & Hw).
    exists w. apply lookup_weight_cell. eauto.
  - destruct (H co po Hco Hpo) as (w & Hw).
    apply lookup_weight_cell in Hw. destruct Hw as (i & cells & ?).
    exists i, cells, w. assumption.
Qed.

Section POAttainment.

Variable co_po_mapping : Mapping.

Lemma weight_of_lookup co po w :
  lookup_weight co_po_mapping co po = Py.Ok w -> weight co_po_mapping co po = w.
Proof.
  intros H. apply lookup_weight_cell in H.
  destruct H as (i & cells & Hi & Hcells & Hw).
  unfold weight. now rewrite Hi, Hcells, Hw.
Qed.

(** The loop over the COs adds the two sums of the specification to its
    accumulators, provided every lookup succeeds. *)
Lemma po_co_loop_sums get po cos acc :
  (forall co, In co cos -> exists w, lookup_weight co_po_mapping co po = Py.Ok w) ->
  exists s w,
    po_co_loop co_po_mapping get po cos acc = Py.Ok (s, w) /\
    s == fst acc + Py.sum (map (fun co => get (achievement_col co) 0
                                        * weight co_po_mapping co po)
                               (weighted_cos co_po_mapping cos po)) /\
    w == snd acc + Py.sum (map (fun co => weight co_po_mapping co po)
                               (weighted_cos co_po_mapping cos po)).
Proof.
  revert acc. induction cos as [| co cos IH]; intros acc Hrows.
  - exists (fst acc), (snd acc). destruct acc. simpl. repeat split; ring.
  - destruct (Hrows co (or_introl eq_refl)) as [w0 Hw0].
    pose proof (weight_of_lookup _ _ _ Hw0) as Hweight.
    cbn [po_co_loop]. rewrite Hw0. cbn [Py.bind].
    unfold weighted_cos. cbn [List.filter]. rewrite Hweight.
    destruct (Py.gt0 w0).
    + destruct (IH (fst acc + get (achievement_col co) 0 * w0, snd acc + w0))
        as (s & w & Hrun & Hs & Hw).
      { intros co' Hco'. apply Hrows. now right. }
      exists s, w. split; [exact Hrun |].
      cbn [fst snd] in Hs, Hw. unfold weighted_cos in Hs, Hw.
      cbn [map]. rewrite Hweight.
      change (Py.sum (?x :: ?l)) with (x + Py.sum l).
      rewrite Hs, Hw. split; ring.
    + apply IH. intros co' Hco'. apply Hrows. now right.
Qed.

Lemma po_denominator_nonneg co_list po :
  0 <= po_denominator co_po_mapping co_list po.
Proof.
  unfold po_denominator, weighted_cos.
  induction co_list as [| co cos IH]; [simpl; lra |].
  cbn [List.filter].
  destruct (Py.gt0 (weight co_po_mapping co po)) eqn:E; [| exact IH].
  apply gt0_true in E.
  change (0 <= weight co_po_mapping co po
               + Py.sum (map (fun co => weight co_po_mapping co po)
                             (List.filter (fun co =>
                                Py.gt0 (weight co_po_mapping co po)) cos))).
  lra.
Qed.

End POAttainment.

(** The value the row loop stores for one row is the attainment of the
    specification, computed on the rows of [view]. *)
Lemma po_row_value M co_list po view idx s w x :
  s == 0 + po_numerator view M co_list idx po ->
  w == 0 + po_denominator M co_list po ->
  x == 0 ->
  (if Py.gt0 w then s / w else x) == po_attainment_spec view M co_list idx po.
Proof.
  intros Hs Hw Hx. unfold po_attainment_spec.
  pose proof (po_denominator_nonneg M co_list po) as Hden.
  destruct (Py.gt0 w) eqn:Hgt.
  - apply gt0_true in Hgt.
    destruct (Qeq_bool (po_denominator M co_list po) 0) eqn:E.
    + apply Qeq_bool_iff in E. lra.
    + rewrite Hs, Hw. field. lra.
  - apply gt0_false in Hgt.
    assert (E : po_denominator M co_list po == 0) by lra.
    apply Qeq_bool_iff in E. rewrite E. exact Hx.
Qed.

Lemma po_row_loop_spec M co_list po view idxs :
  (forall co, In co co_list -> exists w, lookup_weight M co po = Py.Ok w) ->
  NoDup idxs ->
  forall df,
    (forall idx, In idx idxs -> cell_is df (attainment_col po) idx 0) ->
    exists df',
      po_row_loop M co_list po view idxs df = Py.Ok df' /\
      rows df' = rows df /\
      (forall col, col <> attainment_col po ->
                   columns df' !! col = columns df !! col) /\
      (forall idx, ~ In idx idxs ->
                   cell df' (attainment_col po) idx = cell df (attainment_col po) idx) /\
      (forall idx, In idx idxs ->
                   cell_is df' (attainment_col po) idx
                     (po_attainment_spec view M co_list idx po)).
Proof.
  intros Hrows. induction 1 as [| idx idxs Hidx Hnd IH]; intros df Hzero.
  - exists df. cbn [po_row_loop]. repeat split; try reflexivity.
    intros idx [].
  - rewrite list_elem_of_In in Hidx.
    destruct (po_co_loop_sums M (row_get view idx) po co_list (0, 0) Hrows)
      as (s & w & Hrun & Hs & Hw).
    cbn [fst snd] in Hs, Hw.
    cbn [po_row_loop]. rewrite Hrun. cbn [Py.bind].
    destruct (Hzero idx (or_introl eq_refl)) as (x & Hx & Hx0).
    set (df1 := if Py.gt0 w then set_at df idx (attainment_col po) (s / w) else df).
    assert (Hrows1 : rows df1 = rows df) by (subst df1; destruct (Py.gt0 w); reflexivity).
    assert (Hcols1 : forall col, col <> attainment_col po ->
                                 columns df1 !! col = columns df !! col).
    { intros col Hcol. subst df1. destruct (Py.gt0 w); [| reflexivity].
      apply columns_set_at_ne. congruence. }
    assert (Hother : forall j, j <> idx ->
              cell df1 (attainment_col po) j = cell df (attainment_col po) j).
    { intros j Hj. subst df1. destruct (Py.gt0 w); [| reflexivity].
      apply cell_set_at_ne. right. congruence. }
    assert (Hhere : cell df1 (attainment_col po) idx
                    = Some (if Py.gt0 w then s / w else x)).
    { subst df1. destruct (Py.gt0 w); [| exact Hx].
      eapply cell_set_at_eq, Hx. }
    destruct (IH df1) as (df' & Hrun' & Hrows' & Hcols' & Hout' & Hin').
    { intros j Hj. unfold cell_is. rewrite Hother; [apply Hzero; now right |].
      intros ->. contradiction. }
    exists df'. split; [exact Hrun' |]. split; [congruence |].
    split; [| split].
    + intros col Hcol. rewrite Hcols' by assumption. now apply Hcols1.
    + intros j Hj. rewrite Hout' by (intros Hj'; apply Hj; now right).
      apply Hother. intros ->. apply Hj. now left.
    + intros j [<- | Hj]; [| now apply Hin'].
      exists (if Py.gt0 w then s / w else x). split.
      * rewrite Hout' by assumption. exact Hhere.
      * now apply po_row_value.
Qed.

(** The attainment of the specification reads the table only through its
    achievement columns. *)
Lemma po_attainment_spec_ext M co_list df df' idx po :
  (forall co, columns df' !! achievement_col co = columns df !! achievement_col co) ->
  po_attainment_spec df' M co_list idx po = po_attainment_spec df M co_list idx po.
Proof.
  intros H. unfold po_attainment_spec, po_numerator.
  assert (E : forall co, co_achievement_of df' idx co = co_achievement_of df idx co).
  { intros co. unfold co_achievement_of, row_get. now rewrite H. }
  erewrite map_ext; [reflexivity |]. intros co. simpl. now rewrite E.
Qed.

Lemma po_loop_spec M co_list pos :
  matrix_complete M co_list pos ->
  NoDup pos ->
  forall df,
    exists df',
      po_loop M co_list pos df = Py.Ok df' /\
      rows df' = rows df /\
      (forall col, (forall po, In po pos -> col <> attainment_col po) ->
                   columns df' !! col = columns df !! col) /\
      (forall po idx, In po pos -> (idx < nrows df)%nat ->
                      cell_is df' (attainment_col po) idx
                        (po_attainment_spec df M co_list idx po)).
Proof.
  intros Hcomplete Hnd.
  pose proof (proj1 (matrix_complete_lookups M co_list pos) Hcomplete)
    as Hlookups.
  clear Hcomplete. rename Hlookups into Hcomplete. revert Hcomplete.
  induction Hnd as [| po pos Hpo Hnd IH]; intros Hcomplete df.
  - exists df. cbn [po_loop]. repeat split; try reflexivity.
    intros po idx [].
  - rewrite list_elem_of_In in Hpo. cbn [po_loop].
    set (df0 := set_column df (attainment_col po) (replicate (nrows df) 0.0)).
    destruct (po_row_loop_spec M co_list po df0 (seq 0 (nrows df0))) with (df := df0)
      as (df1 & Hrun1 & Hrows1 & Hcols1 & _ & Hin1).
    { intros co Hco. apply Hcomplete; [assumption | now left]. }
    { apply NoDup_seq. }
    { intros idx Hidx. apply in_seq in Hidx. exists 0.0. split; [| reflexivity].
      unfold cell, df0, set_column. simpl. rewrite lookup_insert_eq.
      apply lookup_replicate_2. unfold nrows in *. simpl in Hidx. lia. }
    rewrite Hrun1. cbn [Py.bind].
    destruct (IH (fun co po' Hco Hpo' => Hcomplete co po' Hco (or_intror Hpo')) df1)
      as (df' & Hrun' & Hrows' & Hcols' & Hin').
    assert (Hach1 : forall co,
              columns df1 !! achievement_col co = columns df !! achievement_col co).
    { intros co. rewrite Hcols1 by apply achievement_col_not_attainment.
      unfold df0, set_column. simpl. apply lookup_insert_ne.
      intros E. symmetry in E. revert E. apply achievement_col_not_attainment. }
    assert (Hach0 : forall co,
              columns df0 !! achievement_col co = columns df !! achievement_col co).
    { intros co. unfold df0, set_column. simpl. apply lookup_insert_ne.
      intros E. symmetry in E. revert E. apply achievement_col_not_attainment. }
    exists df'. split; [exact Hrun' |]. split; [| split].
    + rewrite Hrows', Hrows1. reflexivity.
    + intros col Hcol.
      rewrite Hcols' by (intros po' Hpo'; apply Hcol; now right).
      rewrite Hcols1 by (apply Hcol; now left).
      unfold df0, set_column. simpl. apply lookup_insert_ne.
      intros E. symmetry in E. revert E. apply Hcol. now left.
    + intros po' idx [<- | Hpo'] Hidx.
      * destruct (Hin1 idx) as (x & Hx & Hxv).
        { apply in_seq. unfold df0, nrows. simpl. unfold nrows in Hidx. lia. }
        exists x. split.
        -- erewrite cell_columns_eq; [exact Hx |].
           apply Hcols'. intros po' Hpo' E. apply attainment_col_inj in E.
           subst po'. contradiction.
        -- rewrite Hxv. now rewrite (po_attainment_spec_ext M co_list df df0).
      * destruct (Hin' po' idx Hpo') as (x & Hx & Hxv).
        { unfold nrows in *. rewrite Hrows1. exact Hidx. }
        exists x. split; [exact Hx |].
        rewrite Hxv. now rewrite (po_attainment_spec_ext M co_list df df1).
Qed.

Lemma po_attainment_spec_zero_column df M co_list idx po :
  (forall co, In co co_list -> weight M co po == 0) ->
  po_attainment_spec df M co_list idx po = 0.
Proof.
  intros Hzero. unfold po_attainment_spec, po_denominator.
  assert (E : weighted_cos M co_list po = []).
  { unfold weighted_cos. induction co_list as [| co cos IH]; [reflexivity |].
    cbn [List.filter].
    assert (Hco : Py.gt0 (weight M co po) = false).
    { apply gt0_false. rewrite (Hzero co) by now left. lra. }
    rewrite Hco. apply IH. intros co' Hco'. apply Hzero. now right. }
  rewrite E. reflexivity.
Qed.

(** C2. With a weight matrix that has the cell weight[co,po] for every CO
    of [co_list] and each of PO1..PO12 (the cell of column [po] in the first
    row named [co], read from the matrix itself), [calculate_po_attainment]
    returns the table in which, for every student row and each of
    PO1..PO12, the attainment cell holds
    sum(coAchievement[co] * weight[co,po]) / sum(weight[co,po]) over the COs
    of [co_list] with weight[co,po] > 0, and 0 when that denominator is 0; a
    PO whose weight column is all zero gets 0 for every student. *)
Theorem calculate_po_attainment_weighted_average :
  forall df M co_list,
    matrix_complete M co_list po_list ->
    exists df',
      calculate_po_attainment df M co_list = Py.Ok df' /\
      rows df' = rows df /\
      forall po idx, In po po_list -> (idx < nrows df)%nat ->
        cell_is df' (attainment_col po) idx
          (po_attainment_spec df M co_list idx po) /\
        ((forall co, In co co_list -> weight M co po == 0) ->
         cell_is df' (attainment_col po) idx 0).
Proof.
  intros df M co_list Hcomplete.
  destruct (po_loop_spec M co_list po_list Hcomplete po_list_NoDup df)
    as (df' & Hrun & Hrows & _ & Hcells).
  exists df'. split; [exact Hrun |]. split; [exact Hrows |].
  intros po idx Hpo Hidx. split; [now apply Hcells |].
  intros Hzero.
  rewrite <- (po_attainment_spec_zero_column df M co_list idx po Hzero).
  now apply Hcells.
Qed.

Lemma example_mapping_complete :
  matrix_complete example_mapping ["CO1"; "CO2"]%string po_list.
Proof.
  apply matrix_complete_lookups.
  intros co po Hco Hpo. rewrite po_list_names in Hpo. simpl in Hco, Hpo.
  destruct_ors; try contradiction; subst co po; eexists; vm_compute; reflexivity.
Defined.

(** The first student of [achieved_df] has the achievements 475/7 for CO1
    and 365/6 for CO2; with the weights 1 and 0.5 of PO1 the attainment is
    8255/126, and 0 for the all-zero column PO2. *)
Lemma calculate_po_attainment_weighted_average_witness :
  exists df',
    calculate_po_attainment achieved_df example_mapping ["CO1"; "CO2"]%string
      = Py.Ok df' /\
    co_achievement_of achieved_df 0 "CO1" == 475 / 7 /\
    co_achievement_of achieved_df 0 "CO2" == 365 / 6 /\
    cell_is df' (attainment_col "PO1") 0 (8255 / 126) /\
    cell_is df' (attainment_col "PO2") 0 0.
Proof.
  destruct (calculate_po_attainment_weighted_average achieved_df example_mapping
              ["CO1"; "CO2"]%string example_mapping_complete)
    as (df' & Hrun & _ & Hcells).
  exists df'. split; [exact Hrun |].
  split; [vm_compute; reflexivity |]. split; [vm_compute; reflexivity |].
  split.
  - destruct (Hcells "PO1"%string 0%nat) as [(x & Hx & Hv) _].
    + rewrite po_list_names. now left.
    + unfold nrows. simpl. lia.
    + exists x. split; [exact Hx |]. rewrite Hv. vm_compute. reflexivity.
  - apply (Hcells "PO2"%string 0%nat).
    + rewrite po_list_names. right. now left.
    + unfold nrows. simpl. lia.
    + intros co [<- | [<- | []]]; vm_compute; reflexivity.
Defined.

(** * A CO without a row in the weight matrix *)

Lemma loc_mask_nonempty names cells co :
  loc_mask names cells co <> [] -> In co names.
Proof.
  revert cells. induction names as [| name names IH]; intros cells H.
  - destruct cells; contradiction.
  - destruct cells as [| v cells]; [contradiction |]. cbn [loc_mask] in H.
    destruct (String.eqb_spec name co) as [-> | Hne]; [now left |].
    right. eapply IH, H.
Qed.

Lemma lookup_weight_missing M co po :
  ~ In co (Course_Outcome M) ->
  exists e, lookup_weight M co po = Py.Raise e /\
            (is_Some (weight_columns M !! po) -> e = Py.IndexError).
Proof.
  intros Hmissing. unfold lookup_weight.
  destruct (weight_columns M !! po) as [cells |].
  - destruct (loc_mask (Course_Outcome M) cells co) as [| w ws] eqn:E.
    + exists Py.IndexError. split; reflexivity.
    + exfalso. apply Hmissing. apply (loc_mask_nonempty _ cells). now rewrite E.
  - exists Py.KeyError. split; [reflexivity |]. intros [? ?]. discriminate.
Qed.

Lemma lookup_weight_error M co po e :
  lookup_weight M co po = Py.Raise e ->
  is_Some (weight_columns M !! po) -> e = Py.IndexError.
Proof.
  unfold lookup_weight. destruct (weight_columns M !! po) as [cells |].
  - destruct (loc_mask (Course_Outcome M) cells co); intros H _; congruence.
  - intros _ [? ?]. discriminate.
Qed.

(** The loop over the COs raises as soon as it reaches a CO without a row. *)
Lemma po_co_loop_missing M get po co_list :
  (exists co, In co co_list /\ ~ In co (Course_Outcome M)) ->
  forall acc,
    exists e, po_co_loop M get po co_list acc = Py.Raise e /\
              (is_Some (weight_columns M !! po) -> e = Py.IndexError).
Proof.
  induction co_list as [| co cos IH]; intros (co0 & Hin & Hmissing) acc.
  - destruct Hin.
  - cbn [po_co_loop].
    destruct (lookup_weight M co po) as [w | e] eqn:Hlookup.
    + assert (Hrest : exists co', In co' cos /\ ~ In co' (Course_Outcome M)).
      { destruct Hin as [<- | Hin]; [| eauto].
        destruct (lookup_weight_missing M co po Hmissing) as (e & He & _).
        congruence. }
      cbn [Py.bind]. destruct (Py.gt0 w); apply IH; assumption.
    + exists e. split; [reflexivity |]. eapply lookup_weight_error, Hlookup.
Qed.

(** C3, as the code has it. When the student table has at least one row
    and some CO of [co_list] has no row in the weight matrix,
    [calculate_po_attainment] raises a lookup error: an [IndexError] when
    the matrix has the column PO1, a [KeyError] otherwise. *)
Theorem calculate_po_attainment_missing_co :
  forall df M co_list,
    rows df <> [] ->
    (exists co, In co co_list /\ ~ In co (Course_Outcome M)) ->
    exists e,
      calculate_po_attainment df M co_list = Py.Raise e /\
      Py.is_lookup_error e = true /\
      (is_Some (weight_columns M !! "PO1"%string) -> e = Py.IndexError).
Proof.
  intros df M co_list Hrows Hmissing.
  unfold calculate_po_attainment. rewrite po_list_names. cbn [po_loop].
  set (df0 := set_column df (attainment_col "PO1") (replicate (nrows df) 0.0)).
  assert (Hn : exists n, nrows df0 = S n).
  { unfold df0, nrows. simpl. destruct (rows df); [contradiction | eauto]. }
  destruct Hn as [n ->]. cbn [seq po_row_loop].
  destruct (po_co_loop_missing M (row_get df0 0) "PO1" co_list Hmissing (0, 0))
    as (e & -> & He).
  exists e. cbn [Py.bind]. split; [reflexivity |]. split; [| exact He].
  destruct e; reflexivity.
Qed.

Lemma calculate_po_attainment_missing_co_witness :
  exists e,
    calculate_po_attainment example_df example_mapping ["CO1"; "CO9"]%string
      = Py.Raise e /\
    Py.is_lookup_error e = true /\
    (is_Some (weight_columns example_mapping !! "PO1"%string) -> e = Py.IndexError).
Proof.
  apply (calculate_po_attainment_missing_co example_df example_mapping).
  - discriminate.
  - exists "CO9"%string. split; [simpl; tauto |].
    simpl. intros [H | [H | []]]; discriminate.
Defined.

(** C3 as stated fails on a table without students: no row is iterated, no
    weight is looked up, and the call returns although CO9 has no row in
    the weight matrix. *)
Lemma calculate_po_attainment_empty_table_counterexample :
  (In "CO9"%string ["CO1"; "CO9"]%string /\
   ~ In "CO9"%string (Course_Outcome example_mapping)) /\
  exists df',
    calculate_po_attainment empty_df example_mapping ["CO1"; "CO9"]%string
      = Py.Ok df'.
Proof.
  split.
  - split; [simpl; tauto |]. simpl. intros [H | [H | []]]; discriminate.
  - eexists. vm_compute. reflexivity.
Qed.

(** * The range of achievements and attainments *)

(** After [calculate_all_co_achievements] the column of every CO of the
    list holds that CO's achievement of each row. *)
Lemma calculate_all_co_achievements_columns co_list :
  forall df,
    let df' := calculate_all_co_achievements df co_list in
    rows df' = rows df /\
    forall co,
      In co co_list ->
      columns df' !! achievement_col co
        = Some (map (fun row => calculate_co_achievement row co) (rows df)).
Proof.
  unfold calculate_all_co_achievements.
  assert (Hkeep : forall cos df,
            let df' := fold_left (fun df co =>
                         set_column df (achievement_col co)
                           (map (fun row => calculate_co_achievement row co) (rows df)))
                         cos df in
            rows df' = rows df /\
            forall co, ~ In co cos ->
                       columns df' !! achievement_col co
                         = columns df !! achievement_col co).
  { induction cos as [| c cos IH]; intros df; cbn [fold_left]; [split; reflexivity |].
    cbv zeta in IH |- *.
    destruct (IH (set_column df (achievement_col c)
                    (map (fun row => calculate_co_achievement row c) (rows df))))
      as [Hrows Hcols].
    split; [exact Hrows |].
    intros co Hco. rewrite Hcols by (intros H; apply Hco; now right).
    simpl. apply lookup_insert_ne. intros E. apply achievement_col_inj in E.
    apply Hco. now left. }
  induction co_list as [| c cos IH]; intros df; cbn [fold_left]; cbv zeta.
  - split; [reflexivity |]. intros co [].
  - set (df1 := set_column df (achievement_col c)
                  (map (fun row => calculate_co_achievement row c) (rows df))).
    destruct (IH df1) as [Hrows Hcols]. split; [exact Hrows |].
    intros co Hco.
    destruct (in_dec string_dec co cos) as [Hin | Hout].
    + now rewrite (Hcols co Hin).
    + destruct Hco as [-> | Hco]; [| contradiction].
      destruct (Hkeep cos df1) as [_ Hsame]. rewrite (Hsame co Hout).
      unfold df1. simpl. apply lookup_insert_eq.
Qed.







(** * Whitespace around the CO tags *)

Section Whitespace.

Local Open Scope string_scope.

Lemma all_chars_app p s t :
  all_chars p (s ++ t) = all_chars p s && all_chars p t.
Proof.
  induction s as [| c s IH]; [reflexivity |].
  simpl. now rewrite IH, andb_assoc.
Qed.

Lemma isspace_not_comma c : Py.isspace c = true -> Ascii.eqb c Py.comma = false.
Proof.
  intros H. destruct (Ascii.eqb_spec c Py.comma) as [-> | _]; [| reflexivity].
  vm_compute in H. discriminate.
Qed.

Lemma whitespace_comma_free s : whitespace s -> comma_free s.
Proof.
  unfold whitespace, comma_free. induction s as [| c s IH]; [reflexivity |].
  simpl. intros H. apply andb_true_iff in H. destruct H as [Hc Hs].
  now rewrite (isspace_not_comma c Hc), IH.
Qed.

Lemma padded_comma_free p : well_padded p -> comma_free (padded p).
Proof.
  intros (Hl & Ht & Hr). unfold comma_free, padded.
  rewrite !all_chars_app.
  rewrite (whitespace_comma_free _ Hl), (whitespace_comma_free _ Hr), Ht.
  reflexivity.
Qed.

(** [split] finds again the pieces that [join] put together. *)
Lemma split_comma_free s : comma_free s -> Py.split_comma s = [s].
Proof.
  unfold comma_free. induction s as [| c s IH]; [reflexivity |].
  simpl. intros H. apply andb_true_iff in H. destruct H as [Hc Hs].
  apply negb_true_iff in Hc. rewrite Hc, (IH Hs). reflexivity.
Qed.

Lemma split_comma_app s t :
  comma_free s ->
  Py.split_comma (s ++ String Py.comma t) = s :: Py.split_comma t.
Proof.
  unfold comma_free. induction s as [| c s IH]; [reflexivity |].
  simpl. intros H. apply andb_true_iff in H. destruct H as [Hc Hs].
  apply negb_true_iff in Hc. rewrite Hc, (IH Hs). reflexivity.
Qed.

Lemma split_join xs :
  xs <> [] -> Forall comma_free xs ->
  Py.split_comma (Py.join_comma xs) = xs.
Proof.
  induction xs as [| x [| y xs] IH]; intros Hne Hfree; [congruence | |].
  - apply Forall_cons_1 in Hfree. now apply split_comma_free.
  - apply Forall_cons_1 in Hfree. destruct Hfree as [Hx Hrest].
    change (Py.join_comma (x :: y :: xs))
      with (x ++ String Py.comma (Py.join_comma (y :: xs))).
    rewrite split_comma_app by assumption.
    rewrite IH; [reflexivity | discriminate | assumption].
Qed.

(** [strip] removes the whitespace put around a tag. *)
Lemma lstrip_whitespace s : whitespace s -> Py.lstrip s = "".
Proof.
  unfold whitespace. induction s as [| c s IH]; [reflexivity |].
  simpl. intros H. apply andb_true_iff in H. destruct H as [Hc Hs].
  rewrite Hc. now apply IH.
Qed.

Lemma rstrip_whitespace s : whitespace s -> Py.rstrip s = "".
Proof.
  unfold whitespace. induction s as [| c s IH]; [reflexivity |].
  simpl. intros H. apply andb_true_iff in H. destruct H as [Hc Hs].
  rewrite (IH Hs), Hc. reflexivity.
Qed.

Lemma lstrip_whitespace_app l s : whitespace l -> Py.lstrip (l ++ s) = Py.lstrip s.
Proof.
  unfold whitespace. induction l as [| c l IH]; [reflexivity |].
  simpl. intros H. apply andb_true_iff in H. destruct H as [Hc Hl].
  rewrite Hc. now apply IH.
Qed.

Lemma rstrip_app_whitespace s r : whitespace r -> Py.rstrip (s ++ r) = Py.rstrip s.
Proof.
  intros Hr. induction s as [| c s IH]; [now apply rstrip_whitespace |].
  simpl. now rewrite IH.
Qed.

Lemma lstrip_app t r :
  Py.lstrip (t ++ r)
    = if all_chars Py.isspace t then Py.lstrip r else Py.lstrip t ++ r.
Proof.
  induction t as [| c t IH]; [reflexivity |].
  simpl. destruct (Py.isspace c); [exact IH | reflexivity].
Qed.

Lemma strip_padded p :
  whitespace (lead p) -> whitespace (trail p) ->
  Py.strip (padded p) = Py.strip (tag p).
Proof.
  intros Hl Hr. unfold Py.strip, padded.
  rewrite lstrip_whitespace_app by assumption. rewrite lstrip_app.
  destruct (all_chars Py.isspace (tag p)) eqn:Htag.
  - rewrite (lstrip_whitespace _ Hr), (lstrip_whitespace (tag p)) by exact Htag.
    reflexivity.
  - now apply rstrip_app_whitespace.
Qed.

(** Without the guard on the empty string, the parsed tags of the two
    strings are the same. *)
Lemma strip_split_spaced ps :
  ps <> [] -> Forall well_padded ps ->
  map Py.strip (Py.split_comma (spaced ps))
    = map Py.strip (Py.split_comma (bare ps)).
Proof.
  intros Hne Hpad. unfold spaced, bare.
  rewrite !split_join.
  - rewrite !map_map. apply map_ext_in. intros p Hp.
    rewrite List.Forall_forall in Hpad. destruct (Hpad p Hp) as (Hl & _ & Hr).
    now apply strip_padded.
  - destruct ps; [congruence | discriminate].
  - apply List.Forall_map. eapply List.Forall_impl; [| exact Hpad].
    intros p (_ & Ht & _). exact Ht.
  - destruct ps; [congruence | discriminate].
  - apply List.Forall_map. eapply List.Forall_impl; [| exact Hpad].
    intros p Hp. now apply padded_comma_free.
Qed.

Lemma append_empty s t : s ++ t = "" -> s = "" /\ t = "".
Proof. destruct s; simpl; [tauto | discriminate]. Qed.

Lemma spaced_empty ps : ps <> [] -> spaced ps = "" -> bare ps = "".
Proof.
  unfold spaced, bare. destruct ps as [| p [| q ps]]; [congruence | |]; intros _.
  - simpl. unfold padded. intros H.
    apply append_empty in H. destruct H as [_ H].
    apply append_empty in H. tauto.
  - change (Py.join_comma (map padded (p :: q :: ps)))
      with (padded p ++ String Py.comma (Py.join_comma (map padded (q :: ps)))).
    intros H. apply append_empty in H. destruct H as [_ H]. discriminate.
Qed.

(** Unless both the CO name and the tag string are empty, membership in the
    tag list does not see the whitespace; when the CO is a tag, neither does
    the tag list. *)
Lemma parse_spaced co_name ps :
  co_name <> "" \/ bare ps <> "" ->
  ps <> [] -> Forall well_padded ps ->
  Py.contains co_name (parse_co_mapping (Some (spaced ps)))
    = Py.contains co_name (parse_co_mapping (Some (bare ps))) /\
  (Py.contains co_name (parse_co_mapping (Some (bare ps))) = true ->
   parse_co_mapping (Some (spaced ps)) = parse_co_mapping (Some (bare ps))).
Proof.
  intros Hco Hne Hpad. unfold parse_co_mapping.
  pose proof (strip_split_spaced ps Hne Hpad) as Hsame.
  destruct (String.eqb_spec (bare ps) "") as [Hbare | Hbare].
  - split; [| discriminate].
    destruct (String.eqb_spec (spaced ps) "") as [_ | _]; [reflexivity |].
    rewrite Hsame, Hbare.
    change (map Py.strip (Py.split_comma "")) with [""]. simpl.
    destruct (String.eqb_spec co_name "") as [-> | _]; [| reflexivity].
    destruct Hco; congruence.
  - destruct (String.eqb_spec (spaced ps) "") as [Hspaced | _].
    + apply spaced_empty in Hspaced; [contradiction | assumption].
    + rewrite Hsame. split; [reflexivity | reflexivity].
Qed.

(** One iteration of the loop of [calculate_co_achievement] does the same
    on the two rows. *)
Lemma co_step_same_tags row row' co_name acc c :
  co_name <> "" \/ (forall c, co_mapping row c <> Some "") ->
  same_up_to_whitespace row row' ->
  co_step row co_name acc c = co_step row' co_name acc c.
Proof.
  intros Hco [Hmarks Htags]. unfold co_step. rewrite <- (Hmarks c).
  pose proof (Htags c) as Ht.
  inversion Ht as [o Hrow Hrow' | ps Hne Hpad Hrow Hrow'].
  - replace (co_mapping row' c) with (co_mapping row c) by congruence.
    reflexivity.
  - destruct acc as [s w]. destruct (marks row c) as [m |]; [| reflexivity].
    destruct (parse_spaced co_name ps) as [Hin Hlist]; try assumption.
    { destruct Hco as [Hco | Hco]; [now left | right].
      intros E. apply (Hco c). congruence. }
    cbv zeta. rewrite Hin.
    destruct (Py.contains co_name (parse_co_mapping (Some (bare ps)))) eqn:E;
      [| reflexivity].
    now rewrite (Hlist eq_refl).
Qed.

End Whitespace.

(** C10. Two rows with the same marks whose tag strings differ only by
    whitespace around the comma-separated tags have the same achievement
    for every CO: for every CO with a name, and for the empty name too when
    no tag string of the first row is empty. *)
Theorem calculate_co_achievement_whitespace_invariant :
  forall row row' co_name,
    co_name <> EmptyString \/ (forall c, co_mapping row c <> Some EmptyString) ->
    same_up_to_whitespace row row' ->
    calculate_co_achievement row co_name = calculate_co_achievement row' co_name.
Proof.
  intros row row' co_name Hco Hsame.
  unfold calculate_co_achievement, components. cbn [fold_left].
  now rewrite !(co_step_same_tags row row' co_name) by assumption.
Qed.

Lemma co1_co2_same_up_to_whitespace :
  same_up_to_whitespace (mid_only_row "CO1,CO2") (mid_only_row "CO1, CO2").
Proof.
  split; [reflexivity |]. intros c. destruct c; try apply same_tags_refl.
  refine (same_tags_spaced
            [ {| lead := ""; tag := "CO1"; trail := "" |};
              {| lead := " "; tag := "CO2"; trail := "" |} ] _ _).
  - discriminate.
  - repeat constructor.
Defined.

Lemma calculate_co_achievement_whitespace_invariant_witness :
  calculate_co_achievement (mid_only_row "CO1,CO2") "CO2"
  = calculate_co_achievement (mid_only_row "CO1, CO2") "CO2".
Proof.
  apply (calculate_co_achievement_whitespace_invariant
           (mid_only_row "CO1,CO2") (mid_only_row "CO1, CO2") "CO2").
  - right. intros c. destruct c; discriminate.
  - exact co1_co2_same_up_to_whitespace.
Defined.

(** The guard [co_string == ''] of [parse_co_mapping] is tested before the
    tags are stripped: the empty string has no tag, the string made of one
    space has the empty tag, which only the empty CO name matches. *)
Lemma whitespace_only_tag_string :
  same_up_to_whitespace (mid_only_row "") (mid_only_row " ") /\
  calculate_co_achievement (mid_only_row "") "" == 0 /\
  calculate_co_achievement (mid_only_row " ") "" == 100 /\
  ~ calculate_co_achievement (mid_only_row "") ""
    == calculate_co_achievement (mid_only_row " ") "".
Proof.
  split; [| repeat split; try reflexivity; vm_compute; discriminate].
  split; [reflexivity |]. intros c. destruct c; try apply same_tags_refl.
  refine (same_tags_spaced [ {| lead := " "; tag := ""; trail := "" |} ] _ _).
  - discriminate.
  - repeat constructor.
Qed.

(** * Clustering *)

Lemma add_feature_absent df cols acc :
  (forall col, In col cols -> columns df !! col = None) ->
  fold_left (add_feature df) cols acc = acc.
Proof.
  revert acc. induction cols as [| col cols IH]; intros acc H; [reflexivity |].
  cbn [fold_left]. unfold add_feature at 2.
  rewrite (H col) by now left.
  apply IH. intros col' Hcol'. apply H. now right.
Qed.

(** C8. On a table with no [{CO}_achievement] and no [{PO}_attainment]
    column, [student_clustering] returns the table it was given and the
    empty summary, whatever the scaler and the clustering procedure are. *)
Theorem student_clustering_no_features :
  forall scaler_fit_transform kmeans_fit_predict df co_list pos,
    (forall co, In co co_list -> columns df !! achievement_col co = None) ->
    (forall po, In po pos -> columns df !! attainment_col po = None) ->
    student_clustering scaler_fit_transform kmeans_fit_predict df co_list pos
      = Py.Ok (df, ∅).
Proof.
  intros scaler kmeans df co_list pos Hco Hpo. unfold student_clustering.
  rewrite !add_feature_absent; [reflexivity | |].
  - intros col Hcol. apply in_map_iff in Hcol. destruct Hcol as (co & <- & Hin).
    now apply Hco.
  - intros col Hcol. apply in_map_iff in Hcol. destruct Hcol as (po & <- & Hin).
    now apply Hpo.
Qed.

Lemma student_clustering_no_features_witness :
  student_clustering (fun m => m) weakest_first example_df
    ["CO1"; "CO2"]%string po_list
  = Py.Ok (example_df, ∅).
Proof.
  apply (student_clustering_no_features (fun m => m) weakest_first example_df).
  - intros co _. reflexivity.
  - intros po _. reflexivity.
Defined.

(** * The performance group shown for a cluster *)

(** C6 fails on the code. The group shown for a student is
    [cluster_names] at the raw cluster id; on the table [graded_df],
    clustered so that cluster 0 holds the student with grade point 0.0, that
    student is shown as a high performer, while the ranking of the cluster
    means asked for by the specification, and the labelling of the ML
    Insights tab, both put cluster 0 last. *)
Theorem shown_performance_group_is_raw_cluster_id :
  (forall k, shown_performance_group (Some k) = list_index cluster_names (int k)) /\
  exists df' cluster_analysis info,
    student_clustering (fun m => m) weakest_first graded_df ["CO1"]%string po_list
      = Py.Ok (df', cluster_analysis) /\
    cluster_analysis !! 0%nat = Some info /\
    avg_cgpa info = Some 0.0 /\
    student_performance_group df' 0 = Some (Py.Ok HighPerformer) /\
    (exists cells,
        columns df' !! "performance_cluster"%string = Some cells /\
        portal_cluster_labels (cluster_index cells)
          = Py.Ok [HighPerformer; AveragePerformer; NeedsImprovement]) /\
    ranked_performance_group cluster_analysis 0 = Some NeedsImprovement /\
    insights_cluster_group info = NeedsImprovement.
Proof.
  split; [reflexivity |].
  eexists _, _, _. split; [vm_compute; reflexivity |].
  split; [vm_compute; reflexivity |].
  split; [vm_compute; reflexivity |].
  split; [vm_compute; reflexivity |].
  split; [eexists; split; vm_compute; reflexivity |].
  split; vm_compute; reflexivity.
Qed.


(** * Further properties of the grading engine *)

Lemma grade_point_monotone p q :
  p <= q -> snd (marks_to_grade (Some p)) <= snd (marks_to_grade (Some q)).
Proof.
  intros Hpq.
  pose proof (marks_to_grade_intervals p) as Hp. cbv zeta in Hp.
  pose proof (marks_to_grade_intervals q) as Hq. cbv zeta in Hq.
  destruct_ors;
    repeat match goal with
    | H : _ /\ marks_to_grade _ = _ |- _ =>
        let R := fresh "R" in destruct H as [R ->]
    end;
    cbn [snd]; first [ exfalso; lra | unfold Qle; simpl; lia ].
Qed.

(** X1. The grade point never decreases when the percentage increases, and
    a missing percentage gets the lowest grade point. *)
Theorem marks_to_grade_monotone :
  forall p q, p <= q ->
    snd (marks_to_grade (Some p)) <= snd (marks_to_grade (Some q)) /\
    snd (marks_to_grade None) <= snd (marks_to_grade (Some p)).
Proof.
  intros p q Hpq. split; [now apply grade_point_monotone |].
  pose proof (marks_to_grade_intervals p) as Hp. cbv zeta in Hp.
  destruct_ors; destruct Hp as [_ ->]; unfold Qle; simpl; lia.
Qed.

Lemma marks_to_grade_monotone_witness :
  snd (marks_to_grade (Some 64.9)) <= snd (marks_to_grade (Some 65)).
Proof.
  apply (proj1 (marks_to_grade_monotone 64.9 65 ltac:(unfold Qle; simpl; lia))).
Defined.

(** X2. Whatever the percentage, the pair returned by [marks_to_grade] is
    an entry of [self.grading_scale], and the grade point lies between
    0 and 4. *)
Theorem marks_to_grade_in_grading_scale :
  forall percentage,
    grading_scale !! fst (marks_to_grade percentage)
      = Some (snd (marks_to_grade percentage)) /\
    0 <= snd (marks_to_grade percentage) <= 4.
Proof.
  intros [v |]; [| split; [vm_compute; reflexivity | split; unfold Qle; simpl; lia]].
  pose proof (marks_to_grade_intervals v) as Hv. cbv zeta in Hv.
  destruct_ors; destruct Hv as [_ ->];
    (split; [vm_compute; reflexivity | split; unfold Qle; simpl; lia]).
Qed.

Lemma total_of_present row :
  (forall c, exists m, marks row c = Some m) ->
  exists t, calculate_total_marks row = Some t /\
            t == Py.sum (map (fun c => mark_of row c * weights c) components).
Proof.
  intros H. unfold calculate_total_marks, mark_of, components.
  destruct (H mid) as [m Hm], (H final) as [f Hf], (H ct) as [c Hc],
           (H assignment) as [a Ha], (H attendance) as [t Ht].
  unfold Py.sum. cbn [map fold_right]. rewrite Hm, Hf, Hc, Ha, Ht.
  eexists. split; [reflexivity |]. ring.
Qed.

Lemma sum_le {A} (f g : A -> Q) (xs : list A) :
  (forall x, In x xs -> f x <= g x) ->
  Py.sum (map f xs) <= Py.sum (map g xs).
Proof.
  induction xs as [| x xs IH]; intros H; [simpl; lra |].
  change (f x + Py.sum (map f xs) <= g x + Py.sum (map g xs)).
  pose proof (H x (or_introl eq_refl)).
  specialize (IH (fun y Hy => H y (or_intror Hy))). lra.
Qed.

(** X3. With all marks present, raising marks never lowers the total nor
    the grade point. *)
Theorem calculate_total_marks_monotone :
  forall row row',
    (forall c, exists m, marks row c = Some m) ->
    marks_le row row' ->
    exists t t',
      calculate_total_marks row = Some t /\
      calculate_total_marks row' = Some t' /\
      t <= t' /\
      snd (marks_to_grade (Some t)) <= snd (marks_to_grade (Some t')).
Proof.
  intros row row' Hpresent Hle.
  assert (Hpresent' : forall c, exists m, marks row' c = Some m).
  { intros c. specialize (Hle c). destruct (Hpresent c) as [m Hm].
    rewrite Hm in Hle. destruct (marks row' c); [eauto | contradiction]. }
  destruct (total_of_present row Hpresent) as (t & Ht & Hsum).
  destruct (total_of_present row' Hpresent') as (t' & Ht' & Hsum').
  exists t, t'. split; [exact Ht |]. split; [exact Ht' |].
  assert (Htt : t <= t').
  { rewrite Hsum, Hsum'. apply sum_le. intros c _.
    specialize (Hle c). unfold mark_of.
    destruct (marks row c), (marks row' c); try contradiction; [| lra].
    pose proof (weights_pos c). nra. }
  split; [exact Htt |]. now apply grade_point_monotone.
Qed.

Lemma calculate_total_marks_monotone_witness :
  exists t t',
    calculate_total_marks scenario_row = Some t /\
    calculate_total_marks untagged_row = Some t' /\
    t <= t' /\
    snd (marks_to_grade (Some t)) <= snd (marks_to_grade (Some t')).
Proof.
  apply (calculate_total_marks_monotone scenario_row untagged_row).
  - intros c. eexists. reflexivity.
  - intros c. destruct c; unfold Qle; simpl; lia.
Defined.

(** X4. For marks between 0 and the component maxima the total is at most
    28.5, so that [calculate_cgpa_for_student] grades every such student F
    with grade point 0.0. *)
Theorem in_range_marks_grade_F :
  forall row,
    marks_in_range row ->
    exists t,
      calculate_cgpa_for_student row = (Some t, "F"%string, 0.0) /\
      0 <= t <= 28.5.
Proof.
  intros row Hrange.
  destruct (total_of_present row) as (t & Ht & Hsum).
  { intros c. destruct (Hrange c) as (m & Hm & _). eauto. }
  assert (Hbounds : 0 <= t <= 28.5).
  { rewrite Hsum. unfold components, Py.sum. cbn [map fold_right].
    unfold mark_of.
    destruct (Hrange mid) as (m & -> & Hm), (Hrange final) as (f & -> & Hf),
             (Hrange ct) as (c & -> & Hc), (Hrange assignment) as (a & -> & Ha),
             (Hrange attendance) as (d & -> & Hd).
    simpl in *. lra. }
  exists t. split; [| exact Hbounds].
  unfold calculate_cgpa_for_student. rewrite Ht.
  pose proof (marks_to_grade_intervals t) as Hcases. cbv zeta in Hcases.
  destruct_ors; destruct Hcases as [Hr ->]; first [reflexivity | exfalso; lra].
Qed.

Lemma in_range_marks_grade_F_witness :
  exists t,
    calculate_cgpa_for_student untagged_row = (Some t, "F"%string, 0.0) /\
    0 <= t <= 28.5.
Proof.
  apply (in_range_marks_grade_F untagged_row).
  intros c. destruct c; eexists;
    (split; [reflexivity | split; unfold Qle; simpl; lia]).
Defined.

(** X5. The CSS class of the report follows the percentage: excellent from
    80, good from 65, average from 50, poor below and for a missing total. *)
Theorem grade_class_of_percentage :
  forall v,
    (80 <= v -> _get_grade_class (fst (marks_to_grade (Some v))) = "grade-excellent"%string) /\
    (65 <= v < 80 -> _get_grade_class (fst (marks_to_grade (Some v))) = "grade-good"%string) /\
    (50 <= v < 65 -> _get_grade_class (fst (marks_to_grade (Some v))) = "grade-average"%string) /\
    (v < 50 -> _get_grade_class (fst (marks_to_grade (Some v))) = "grade-poor"%string) /\
    _get_grade_class (fst (marks_to_grade None)) = "grade-poor"%string.
Proof.
  intros v.
  pose proof (marks_to_grade_intervals v) as Hcases. cbv zeta in Hcases.
  repeat split; try reflexivity; intros Hv;
    destruct_ors; destruct Hcases as [Hr ->];
    first [reflexivity | exfalso; lra].
Qed.

(** * Further properties of the CO tags *)

Section Tags.

Local Open Scope string_scope.

Lemma lstrip_starts_clean s : starts_clean (Py.lstrip s).
Proof.
  induction s as [| c s IH]; [exact I |].
  simpl. destruct (Py.isspace c) eqn:E; [exact IH | exact E].
Qed.

Lemma lstrip_clean s : starts_clean s -> Py.lstrip s = s.
Proof. destruct s as [| c s]; [reflexivity |]. simpl. now intros ->. Qed.

Lemma rstrip_starts_clean s : starts_clean s -> starts_clean (Py.rstrip s).
Proof.
  destruct s as [| c s]; [exact (fun H => H) |]. simpl. intros Hc.
  destruct (Py.rstrip s); [rewrite Hc |]; exact Hc.
Qed.

Lemma rstrip_idempotent s : Py.rstrip (Py.rstrip s) = Py.rstrip s.
Proof.
  induction s as [| c s IH]; [reflexivity |].
  simpl. destruct (Py.rstrip s) as [| k ks] eqn:E.
  - destruct (Py.isspace c) eqn:Hc; [reflexivity |]. simpl. now rewrite Hc.
  - change (Py.rstrip (String c (String k ks))) with
      (match Py.rstrip (String k ks) with
       | "" => if Py.isspace c then "" else String c ""
       | kept => String c kept
       end).
    now rewrite IH.
Qed.

Lemma strip_idempotent s : Py.strip (Py.strip s) = Py.strip s.
Proof.
  unfold Py.strip.
  rewrite (lstrip_clean (Py.rstrip (Py.lstrip s))).
  - apply rstrip_idempotent.
  - apply rstrip_starts_clean, lstrip_starts_clean.
Qed.

Lemma lstrip_comma_free s : comma_free s -> comma_free (Py.lstrip s).
Proof.
  unfold comma_free. induction s as [| c s IH]; [reflexivity |].
  simpl. intros H. destruct (Py.isspace c); [| exact H].
  apply andb_true_iff in H. now apply IH.
Qed.

Lemma rstrip_comma_free s : comma_free s -> comma_free (Py.rstrip s).
Proof.
  unfold comma_free. induction s as [| c s IH]; [reflexivity |].
  simpl. intros H. apply andb_true_iff in H. destruct H as [Hc Hs].
  specialize (IH Hs). destruct (Py.rstrip s) as [| k ks].
  - destruct (Py.isspace c); [reflexivity |]. simpl. now rewrite Hc.
  - simpl in *. now rewrite Hc, IH.
Qed.

Lemma split_comma_pieces s :
  Forall comma_free (Py.split_comma s) /\
  length (Py.split_comma s) = S (count_commas s).
Proof.
  induction s as [| c s [IHfree IHlen]]; [split; [repeat constructor | reflexivity] |].
  simpl. destruct (Ascii.eqb c Py.comma) eqn:E.
  - split; [constructor; [reflexivity | exact IHfree] | simpl; now rewrite IHlen].
  - destruct (Py.split_comma s) as [| piece pieces]; [discriminate |].
    apply Forall_cons_1 in IHfree. destruct IHfree as [Hpiece Hpieces].
    split; [| exact IHlen].
    constructor; [| exact Hpieces].
    unfold comma_free in *. simpl. now rewrite E, Hpiece.
Qed.

Lemma join_comma_empty xs : xs <> [] -> Py.join_comma xs = "" -> xs = [""].
Proof.
  destruct xs as [| x [| y xs]]; [congruence | |]; intros _.
  - simpl. now intros ->.
  - change (Py.join_comma (x :: y :: xs))
      with (x ++ String Py.comma (Py.join_comma (y :: xs))).
    intros H. apply append_empty in H. destruct H as [_ H]. discriminate.
Qed.

End Tags.

(** X6. Every tag returned by [parse_co_mapping] is free of surrounding
    whitespace and of commas, and a non-empty tag string with n commas
    gives n + 1 tags. *)
Theorem parse_co_mapping_tags_clean :
  forall s,
    (forall t, In t (parse_co_mapping (Some s)) ->
               Py.strip t = t /\ comma_free t) /\
    (s <> EmptyString ->
     length (parse_co_mapping (Some s)) = S (count_commas s)).
Proof.
  intros s. unfold parse_co_mapping.
  destruct (String.eqb_spec s EmptyString) as [-> | Hs].
  - split; [intros t [] | congruence].
  - destruct (split_comma_pieces s) as [Hfree Hlen]. split.
    + intros t Ht. apply in_map_iff in Ht. destruct Ht as (piece & <- & Hpiece).
      split; [apply strip_idempotent |].
      rewrite List.Forall_forall in Hfree.
      apply rstrip_comma_free, lstrip_comma_free, Hfree, Hpiece.
    + intros _. now rewrite length_map.
Qed.

(** X7. Round trip: a list of tags that are free of commas and of
    surrounding whitespace is read back from its comma-joined string,
    provided the list is neither empty nor the single empty tag. *)
Theorem parse_co_mapping_join :
  forall tags,
    tags <> [] -> tags <> [EmptyString] ->
    (forall t, In t tags -> Py.strip t = t /\ comma_free t) ->
    parse_co_mapping (Some (Py.join_comma tags)) = tags.
Proof.
  intros tags Hne Hne' Hclean. unfold parse_co_mapping.
  destruct (String.eqb_spec (Py.join_comma tags) EmptyString) as [E | _].
  - apply join_comma_empty in E; [contradiction | assumption].
  - rewrite split_join; [| assumption |].
    + rewrite <- (map_id tags) at 2. apply map_ext_in.
      intros t Ht. apply Hclean, Ht.
    + apply List.Forall_forall. intros t Ht. apply Hclean, Ht.
Qed.

Lemma parse_co_mapping_join_witness :
  parse_co_mapping (Some (Py.join_comma ["CO1"; "CO2"; "CO 3"]%string))
  = ["CO1"; "CO2"; "CO 3"]%string.
Proof.
  apply (parse_co_mapping_join ["CO1"; "CO2"; "CO 3"]%string).
  - discriminate.
  - discriminate.
  - intros t [<- | [<- | [<- | []]]]; split; reflexivity.
Defined.

(** * Further properties of the CO achievement *)

Lemma maps_to_marks_le row row' co c :
  (forall c, co_mapping row c = co_mapping row' c) ->
  marks_le row row' ->
  maps_to row' co c = maps_to row co c.
Proof.
  intros Htags Hle. unfold maps_to. rewrite <- (Htags c).
  specialize (Hle c).
  destruct (marks row c), (marks row' c); try contradiction; reflexivity.
Qed.

Lemma filter_ext_all {A} (f g : A -> bool) (xs : list A) :
  (forall x, f x = g x) -> List.filter f xs = List.filter g xs.
Proof.
  intros H. induction xs as [| x xs IH]; [reflexivity |].
  simpl. now rewrite H, IH.
Qed.

Lemma ratio_le (x y d : Q) : 0 < d -> x <= y -> x / d <= y / d.
Proof.
  intros Hd Hxy. apply Qle_shift_div_l; [assumption |].
  assert (E : x / d * d == x) by (field; lra). rewrite E. exact Hxy.
Qed.

(** X9. With the same tags, raising marks never lowers a CO achievement. *)
Theorem calculate_co_achievement_monotone :
  forall row row' co_name,
    (forall c, co_mapping row c = co_mapping row' c) ->
    marks_le row row' ->
    calculate_co_achievement row co_name <= calculate_co_achievement row' co_name.
Proof.
  intros row row' co Htags Hle.
  rewrite !calculate_co_achievement_refines. unfold co_achievement_spec.
  assert (Hsame : mapped_components row' co = mapped_components row co).
  { unfold mapped_components. apply filter_ext_all.
    intros c. now apply maps_to_marks_le. }
  rewrite Hsame.
  destruct (mapped_components row co) as [| c0 cs0] eqn:Hmapped; [lra |].
  unfold co_numerator, co_denominator. rewrite Hsame, Hmapped.
  assert (Hpos : 0 < Py.sum (map weights (c0 :: cs0))).
  { apply sum_weights_pos. discriminate. }
  assert (Hnum : Py.sum (map (fun c => ((mark_of row c / tag_count row c)
                                         / max_marks c) * weights c) (c0 :: cs0))
                 <= Py.sum (map (fun c => ((mark_of row' c / tag_count row' c)
                                            / max_marks c) * weights c) (c0 :: cs0))).
  { apply sum_le. intros c Hc. rewrite <- Hmapped in Hc.
    apply filter_In in Hc. destruct Hc as [_ Hmaps].
    assert (Htag : tag_count row' c = tag_count row c).
    { unfold tag_count. now rewrite (Htags c). }
    rewrite Htag.
    assert (Ht : 0 < tag_count row c).
    { unfold tag_count. apply len_pos. unfold maps_to in Hmaps.
      destruct (marks row c); [| discriminate].
      destruct (co_mapping row c); [| discriminate].
      eapply contains_nonempty, Hmaps. }
    assert (Hm : mark_of row c <= mark_of row' c).
    { specialize (Hle c). unfold mark_of.
      destruct (marks row c), (marks row' c); try contradiction; [assumption | lra]. }
    pose proof (weights_pos c). pose proof (max_marks_pos c).
    pose proof (ratio_le _ _ _ Ht Hm) as H1.
    pose proof (ratio_le _ _ _ H0 H1) as H2. nra. }
  pose proof (ratio_le _ _ _ Hpos Hnum). lra.
Qed.

Lemma calculate_co_achievement_monotone_witness :
  calculate_co_achievement scenario_row "CO1"
    <= calculate_co_achievement untagged_row "CO1" /\
  calculate_co_achievement
      {| marks := marks scenario_row; co_mapping := co_mapping tagged_row |} "CO1"
    <= calculate_co_achievement
         {| marks := marks untagged_row; co_mapping := co_mapping tagged_row |} "CO1".
Proof.
  split; apply calculate_co_achievement_monotone;
    try reflexivity; intros c; destruct c; unfold Qle; simpl; lia.
Defined.

(** * Further properties of the derived columns *)

Lemma calculate_all_co_achievements_others co_list :
  forall df col,
    (forall co, In co co_list -> col <> achievement_col co) ->
    columns (calculate_all_co_achievements df co_list) !! col = columns df !! col.
Proof.
  unfold calculate_all_co_achievements.
  induction co_list as [| c cos IH]; intros df col Hcol; [reflexivity |].
  cbn [fold_left]. rewrite IH by (intros co Hco; apply Hcol; now right).
  simpl. apply lookup_insert_ne. intros E. symmetry in E. revert E.
  apply Hcol. now left.
Qed.

Lemma DataFrame_eq (df df' : DataFrame) :
  rows df = rows df' ->
  (forall col, columns df !! col = columns df' !! col) ->
  df = df'.
Proof.
  destruct df as [r c], df' as [r' c']. simpl. intros -> H.
  f_equal. now apply map_eq.
Qed.

(** The same function on a table whose rows may lack a column, in
    binary64. *)
Lemma binary64_apply_rows_length f rs cells :
  Binary64.apply_rows f rs = Py.Ok cells -> length cells = length rs.
Proof.
  revert cells. induction rs as [| r rs IH]; intros cells H.
  - injection H as <-. reflexivity.
  - cbn [Binary64.apply_rows] in H.
    destruct (f r) as [v | e]; [| discriminate]. cbn [Py.bind] in H.
    destruct (Binary64.apply_rows f rs) as [vs | e]; [| discriminate].
    injection H as <-. simpl. f_equal. now apply IH.
Qed.

Lemma binary64_apply_rows_returns f rs :
  (forall r, In r rs -> exists v, f r = Py.Ok v) ->
  exists cells, Binary64.apply_rows f rs = Py.Ok cells.
Proof.
  induction rs as [| r rs IH]; intros H; [eexists; reflexivity |].
  destruct (H r (or_introl eq_refl)) as [v Hv].
  destruct IH as [vs Hvs]; [intros; apply H; now right |].
  exists (v :: vs). cbn [Binary64.apply_rows]. now rewrite Hv, Hvs.
Qed.

Lemma binary64_all_co_achievements_others co_list :
  forall df df' col,
    Binary64.calculate_all_co_achievements df co_list = Py.Ok df' ->
    (forall co, In co co_list -> col <> achievement_col co) ->
    Binary64.rows df' = Binary64.rows df /\
    Binary64.columns df' !! col = Binary64.columns df !! col.
Proof.
  induction co_list as [| c cos IH]; intros df df' col Hrun Hcol.
  - injection Hrun as <-. split; reflexivity.
  - cbn [Binary64.calculate_all_co_achievements] in Hrun.
    destruct (Binary64.apply_rows _ (Binary64.rows df)) as [cells | e];
      [| discriminate].
    cbn [Py.bind] in Hrun. apply (IH _ _ col) in Hrun.
    + destruct Hrun as [Hrows Hcols]. split; [exact Hrows |].
      rewrite Hcols. simpl. apply lookup_insert_ne.
      intros E. symmetry in E. revert E. apply Hcol. now left.
    + intros co Hco. apply Hcol. now right.
Qed.

Lemma binary64_all_co_achievements_rows co_list df df' :
  Binary64.calculate_all_co_achievements df co_list = Py.Ok df' ->
  Binary64.rows df' = Binary64.rows df.
Proof.
  revert df. induction co_list as [| c cos IH]; intros df Hrun.
  - now injection Hrun as <-.
  - cbn [Binary64.calculate_all_co_achievements] in Hrun.
    destruct (Binary64.apply_rows _ (Binary64.rows df)) as [cells | e];
      [| discriminate].
    cbn [Py.bind] in Hrun. now apply IH in Hrun.
Qed.

Lemma binary64_all_co_achievements_columns co_list :
  forall df df' co,
    Binary64.calculate_all_co_achievements df co_list = Py.Ok df' ->
    In co co_list ->
    exists cells,
      Binary64.apply_rows
        (fun row => Binary64.calculate_co_achievement row co)
        (Binary64.rows df) = Py.Ok cells /\
      Binary64.columns df' !! achievement_col co = Some cells.
Proof.
  induction co_list as [| c cos IH]; intros df df' co Hrun Hco; [destruct Hco |].
  cbn [Binary64.calculate_all_co_achievements] in Hrun.
  destruct (Binary64.apply_rows _ (Binary64.rows df)) as [cells | e] eqn:Hcells;
    [| discriminate].
  cbn [Py.bind] in Hrun.
  destruct (in_dec string_dec co cos) as [Hin | Hout].
  - destruct (IH _ _ co Hrun Hin) as (cells' & Hrun' & Hcol). eauto.
  - destruct Hco as [<- | Hco]; [| contradiction].
    exists cells. split; [exact Hcells |].
    destruct (binary64_all_co_achievements_others cos _ df' (achievement_col c) Hrun)
      as [_ Hsame].
    { intros co Hco E. apply achievement_col_inj in E. subst co. contradiction. }
    rewrite Hsame. simpl. apply lookup_insert_eq.
Qed.

Lemma binary64_all_co_achievements_returns co_list :
  forall df,
    (forall row, In row (Binary64.rows df) -> Binary64.has_columns row) ->
    exists df', Binary64.calculate_all_co_achievements df co_list = Py.Ok df'.
Proof.
  induction co_list as [| c cos IH]; intros df Hcols; [eexists; reflexivity |].
  cbn [Binary64.calculate_all_co_achievements].
  destruct (binary64_apply_rows_returns
              (fun row => Binary64.calculate_co_achievement row c)
              (Binary64.rows df)) as [cells ->].
  { intros r Hr. eexists.
    apply binary64_calculate_co_achievement_scaled, Hcols, Hr. }
  cbn [Py.bind]. apply IH. exact Hcols.
Qed.

Lemma binary64_DataFrame_eq (df df' : Binary64.DataFrame) :
  Binary64.rows df = Binary64.rows df' ->
  (forall col, Binary64.columns df !! col = Binary64.columns df' !! col) ->
  df = df'.
Proof.
  destruct df as [r c], df' as [r' c']. simpl. intros -> H.
  f_equal. now apply map_eq.
Qed.

Lemma binary64_all_co_achievements_idempotent co_list df df' :
  Binary64.calculate_all_co_achievements df co_list = Py.Ok df' ->
  Binary64.calculate_all_co_achievements df' co_list = Py.Ok df'.
Proof.
  intros Hrun.
  assert (Hagain : forall cos d,
            Binary64.rows d = Binary64.rows df ->
            (forall co, In co cos ->
               exists cells,
                 Binary64.apply_rows
                   (fun row => Binary64.calculate_co_achievement row co)
                   (Binary64.rows df) = Py.Ok cells /\
                 Binary64.columns d !! achievement_col co = Some cells) ->
            Binary64.calculate_all_co_achievements d cos = Py.Ok d).
  { induction cos as [| c cos IH]; intros d Hrows Hcells; [reflexivity |].
    cbn [Binary64.calculate_all_co_achievements].
    destruct (Hcells c (or_introl eq_refl)) as (cells & Hcalc & Hcol).
    rewrite Hrows, Hcalc. cbn [Py.bind].
    assert (E : Binary64.set_column d (achievement_col c) cells = d).
    { apply binary64_DataFrame_eq; [reflexivity |]. intros col. simpl.
      destruct (decide (achievement_col c = col)) as [<- | Hne].
      - now rewrite lookup_insert_eq.
      - now rewrite lookup_insert_ne. }
    rewrite E. apply IH; [exact Hrows |].
    intros co Hco. apply Hcells. now right. }
  apply Hagain.
  - eapply binary64_all_co_achievements_rows, Hrun.
  - intros co Hco. eapply binary64_all_co_achievements_columns; eassumption.
Qed.

(** X11. On a table with at least one row, [calculate_all_co_achievements]
    returns when every row has the five marks columns and the five
    [co_mapping] columns; whenever it returns, it has written, for every CO
    of the list, the column of that CO's achievements of the rows, it has
    kept the rows and every other column, and running it a second time
    changes nothing. *)
Theorem calculate_all_co_achievements_frame :
  forall df co_list,
    Binary64.rows df <> [] ->
    ((forall row, In row (Binary64.rows df) -> Binary64.has_columns row) ->
     exists df', Binary64.calculate_all_co_achievements df co_list = Py.Ok df') /\
    forall df',
      Binary64.calculate_all_co_achievements df co_list = Py.Ok df' ->
      Binary64.rows df' = Binary64.rows df /\
      (forall co, In co co_list ->
         exists cells,
           Binary64.apply_rows
             (fun row => Binary64.calculate_co_achievement row co)
             (Binary64.rows df) = Py.Ok cells /\
           Binary64.columns df' !! achievement_col co = Some cells) /\
      (forall col, (forall co, In co co_list -> col <> achievement_col co) ->
         Binary64.columns df' !! col = Binary64.columns df !! col) /\
      Binary64.calculate_all_co_achievements df' co_list = Py.Ok df'.
Proof.
  intros df co_list _. split.
  - apply binary64_all_co_achievements_returns.
  - intros df' Hrun. split; [| split; [| split]].
    + eapply binary64_all_co_achievements_rows, Hrun.
    + intros co Hco. eapply binary64_all_co_achievements_columns; eassumption.
    + intros col Hcol.
      now destruct (binary64_all_co_achievements_others co_list df df' col Hrun Hcol).
    + eapply binary64_all_co_achievements_idempotent, Hrun.
Qed.

Lemma calculate_all_co_achievements_frame_witness :
  exists df',
    Binary64.calculate_all_co_achievements Binary64.completed_template_df
      ["CO1"; "CO4"]%string = Py.Ok df' /\
    Binary64.rows df' = Binary64.rows Binary64.completed_template_df /\
    Binary64.columns df' !! achievement_col "CO1"
    = Some [42.549019607843135; 47.843137254901954; 36.470588235294116]%float /\
    Binary64.columns df' !! achievement_col "CO4" = Some [0; 0; 0]%float /\
    Binary64.calculate_all_co_achievements df' ["CO1"; "CO4"]%string = Py.Ok df'.
Proof.
  destruct (calculate_all_co_achievements_frame Binary64.completed_template_df
              ["CO1"; "CO4"]%string) as [Hreturns Hframe]; [discriminate |].
  destruct Hreturns as [df' Hrun].
  { intros row [<- | [<- | [<- | []]]]; apply template_student_has_columns. }
  destruct (Hframe df' Hrun) as (Hrows & Hcols & _ & Hagain).
  exists df'. split; [exact Hrun |]. split; [exact Hrows |].
  split; [| split; [| exact Hagain]].
  - destruct (Hcols "CO1"%string) as (cells & Hcells & Hcol); [now left |].
    rewrite Hcol. f_equal. vm_compute in Hcells. now injection Hcells as <-.
  - destruct (Hcols "CO4"%string) as (cells & Hcells & Hcol); [right; now left |].
    rewrite Hcol. f_equal. vm_compute in Hcells. now injection Hcells as <-.
Defined.

Lemma binary64_co_step_returns row co_name acc c :
  Binary64.marks row c <> None ->
  Binary64.co_mapping row c <> None ->
  exists acc', Binary64.co_step row co_name acc c = Py.Ok acc'.
Proof.
  unfold Binary64.co_step. intros Hm Hc.
  destruct (Binary64.marks row c) as [m |]; [| congruence].
  destruct (PrimFloat.is_nan m); [eauto |].
  destruct (Binary64.co_mapping row c) as [[s |] |]; [| eauto | congruence].
  cbv zeta. destruct (Py.contains _ _); eauto.
Qed.

(** X23. A row with an attendance mark whose table has no
    [attendance_co_mapping] column, the layout of the repository's own
    template and sample format, makes [calculate_co_achievement] raise
    [KeyError] for every CO, and with it [calculate_all_co_achievements] on
    every table that begins with such a row, for every non-empty CO list. *)
Theorem attendance_without_co_mapping_raises :
  forall row m,
    (forall c, c <> attendance ->
               Binary64.marks row c <> None /\ Binary64.co_mapping row c <> None) ->
    Binary64.marks row attendance = Some m ->
    PrimFloat.is_nan m = false ->
    Binary64.co_mapping row attendance = None ->
    (forall co_name,
       Binary64.calculate_co_achievement row co_name = Py.Raise Py.KeyError) /\
    (forall rest derived co co_list,
       Binary64.calculate_all_co_achievements
         {| Binary64.rows := row :: rest; Binary64.columns := derived |}
         (co :: co_list)
       = Py.Raise Py.KeyError).
Proof.
  intros row m Hcols Hm Hnan Htags.
  assert (Hraise : forall co_name,
            Binary64.calculate_co_achievement row co_name = Py.Raise Py.KeyError).
  { intros co_name. unfold Binary64.calculate_co_achievement, components.
    cbn [Binary64.co_loop].
    destruct (binary64_co_step_returns row co_name (0%float, 0%float) mid)
      as [a1 ->]; try (apply Hcols; discriminate). cbn [Py.bind].
    destruct (binary64_co_step_returns row co_name a1 final)
      as [a2 ->]; try (apply Hcols; discriminate). cbn [Py.bind].
    destruct (binary64_co_step_returns row co_name a2 ct)
      as [a3 ->]; try (apply Hcols; discriminate). cbn [Py.bind].
    destruct (binary64_co_step_returns row co_name a3 assignment)
      as [a4 ->]; try (apply Hcols; discriminate). cbn [Py.bind].
    unfold Binary64.co_step. rewrite Hm, Hnan, Htags. reflexivity. }
  split; [exact Hraise |].
  intros rest derived co co_list.
  cbn [Binary64.calculate_all_co_achievements Binary64.rows Binary64.apply_rows].
  rewrite Hraise. reflexivity.
Qed.

Lemma attendance_without_co_mapping_raises_witness :
  Binary64.calculate_co_achievement (Binary64.template_student_1 None) "CO1"
  = Py.Raise Py.KeyError /\
  Binary64.calculate_all_co_achievements Binary64.template_df
    ["CO1"; "CO2"; "CO3"; "CO4"]%string
  = Py.Raise Py.KeyError.
Proof.
  destruct (attendance_without_co_mapping_raises
              (Binary64.template_student_1 None) 4%float) as [Hrow Htable].
  - intros c Hc. destruct c; try contradiction; split; discriminate.
  - reflexivity.
  - reflexivity.
  - reflexivity.
  - split; [apply Hrow | apply Htable].
Defined.

(** X12. A successful [calculate_po_attainment] keeps the rows and every
    column other than the twelve attainment columns; in particular the
    achievement columns are left as they were. *)
Theorem calculate_po_attainment_frame :
  forall df M co_list df',
    calculate_po_attainment df M co_list = Py.Ok df' ->
    rows df' = rows df /\
    (forall col, (forall po, In po po_list -> col <> attainment_col po) ->
       columns df' !! col = columns df !! col) /\
    (forall co, columns df' !! achievement_col co = columns df !! achievement_col co).
Proof.
  intros df M co_list df'. unfold calculate_po_attainment.
  assert (Hrow : forall po view idxs d d',
            po_row_loop M co_list po view idxs d = Py.Ok d' ->
            rows d' = rows d /\
            forall col, col <> attainment_col po ->
                        columns d' !! col = columns d !! col).
  { intros po view. induction idxs as [| idx idxs IH]; intros d d' Hrun.
    - cbn [po_row_loop] in Hrun. injection Hrun as <-. split; reflexivity.
    - cbn [po_row_loop] in Hrun.
      destruct (po_co_loop M (row_get view idx) po co_list (0, 0)) as [[s w] | e];
        [| discriminate].
      cbn [Py.bind] in Hrun. apply IH in Hrun. destruct Hrun as [Hr Hc].
      destruct (Py.gt0 w); [| split; assumption].
      split; [exact Hr |]. intros col Hcol. rewrite (Hc col Hcol).
      apply columns_set_at_ne. congruence. }
  assert (Hpo : forall pos d d',
            po_loop M co_list pos d = Py.Ok d' ->
            rows d' = rows d /\
            forall col, (forall po, In po pos -> col <> attainment_col po) ->
                        columns d' !! col = columns d !! col).
  { induction pos as [| po pos IH]; intros d d' Hrun.
    - cbn [po_loop] in Hrun. injection Hrun as <-. split; reflexivity.
    - cbn [po_loop] in Hrun.
      set (d0 := set_column d (attainment_col po) (replicate (nrows d) 0.0)) in Hrun.
      destruct (po_row_loop M co_list po d0 (seq 0 (nrows d0)) d0) as [d1 | e] eqn:E;
        [| discriminate].
      cbn [Py.bind] in Hrun. apply IH in Hrun. destruct Hrun as [Hr Hc].
      apply Hrow in E. destruct E as [Hr1 Hc1].
      split; [now rewrite Hr, Hr1 |].
      intros col Hcol. rewrite Hc by (intros po' Hpo'; apply Hcol; now right).
      rewrite Hc1 by (apply Hcol; now left).
      unfold d0. simpl. apply lookup_insert_ne.
      intros E. symmetry in E. revert E. apply Hcol. now left. }
  intros Hrun. apply Hpo in Hrun. destruct Hrun as [Hr Hc].
  split; [exact Hr |]. split; [exact Hc |].
  intros co. apply Hc. intros po _. apply achievement_col_not_attainment.
Qed.

Lemma calculate_po_attainment_frame_witness :
  exists df',
    calculate_po_attainment example_df example_mapping ["CO1"; "CO2"]%string
      = Py.Ok df' /\
    rows df' = rows example_df /\
    (forall col, (forall po, In po po_list -> col <> attainment_col po) ->
       columns df' !! col = columns example_df !! col) /\
    (forall co, columns df' !! achievement_col co
                = columns example_df !! achievement_col co).
Proof.
  destruct (calculate_po_attainment example_df example_mapping ["CO1"; "CO2"]%string)
    as [df' | e] eqn:E; [| vm_compute in E; discriminate].
  exists df'. split; [reflexivity |].
  exact (calculate_po_attainment_frame example_df example_mapping
           ["CO1"; "CO2"]%string df' E).
Defined.

(** * Further properties of the PO attainment *)

Lemma po_co_loop_ok_lookups M get po co_list :
  forall acc r,
    po_co_loop M get po co_list acc = Py.Ok r ->
    forall co, In co co_list -> exists w, lookup_weight M co po = Py.Ok w.
Proof.
  induction co_list as [| c cos IH]; intros acc r Hrun co Hco; [destruct Hco |].
  cbn [po_co_loop] in Hrun.
  destruct (lookup_weight M c po) as [w | e] eqn:E; [| discriminate].
  cbn [Py.bind] in Hrun.
  destruct Hco as [<- | Hco]; [eauto |].
  destruct (Py.gt0 w); eapply IH; eassumption.
Qed.

Lemma po_row_loop_rows M co_list po view idxs :
  forall df df',
    po_row_loop M co_list po view idxs df = Py.Ok df' -> rows df' = rows df.
Proof.
  induction idxs as [| idx idxs IH]; intros df df' Hrun.
  - cbn [po_row_loop] in Hrun. now injection Hrun as <-.
  - cbn [po_row_loop] in Hrun.
    destruct (po_co_loop M (row_get view idx) po co_list (0, 0)) as [[s w] | e];
      [| discriminate].
    cbn [Py.bind] in Hrun. apply IH in Hrun. rewrite Hrun.
    destruct (Py.gt0 w); reflexivity.
Qed.

Lemma po_loop_ok_complete M co_list pos :
  forall df df',
    rows df <> [] ->
    po_loop M co_list pos df = Py.Ok df' ->
    forall co po, In co co_list -> In po pos ->
      exists w, lookup_weight M co po = Py.Ok w.
Proof.
  induction pos as [| po pos IH]; intros df df' Hrows Hrun co po' Hco Hpo';
    [destruct Hpo' |].
  cbn [po_loop] in Hrun.
  set (df0 := set_column df (attainment_col po) (replicate (nrows df) 0.0)) in Hrun.
  destruct (po_row_loop M co_list po df0 (seq 0 (nrows df0)) df0) as [df1 | e] eqn:E;
    [| discriminate].
  cbn [Py.bind] in Hrun.
  destruct Hpo' as [<- | Hpo'].
  - assert (Hn : exists n, nrows df0 = S n).
    { unfold df0, nrows. simpl. destruct (rows df); [contradiction | eauto]. }
    destruct Hn as [n Hn]. rewrite Hn in E. cbn [seq po_row_loop] in E.
    destruct (po_co_loop M (row_get df0 0) po co_list (0, 0)) as [r | e] eqn:Hco_loop;
      [| discriminate].
    eapply po_co_loop_ok_lookups; eassumption.
  - eapply (IH df1 df'); try eassumption.
    apply po_row_loop_rows in E. rewrite E. exact Hrows.
Qed.

(** X13. On a table with at least one row, [calculate_po_attainment]
    returns exactly when the weight matrix has the cell weight[co,po] for
    every CO of [co_list] and each of PO1..PO12, that is a row named [co],
    the column [po] and the cell where they meet; otherwise it raises. For
    an empty [co_list] no cell is asked for, and the call returns whatever
    the matrix holds. *)
Theorem calculate_po_attainment_returns_iff_complete :
  forall df M co_list,
    rows df <> [] ->
    ((exists df', calculate_po_attainment df M co_list = Py.Ok df') <->
     matrix_complete M co_list po_list).
Proof.
  intros df M co_list Hrows. split.
  - intros [df' Hrun]. apply matrix_complete_lookups.
    eapply po_loop_ok_complete; eassumption.
  - intros Hcomplete.
    destruct (po_loop_spec M co_list po_list Hcomplete po_list_NoDup df)
      as (df' & Hrun & _).
    exists df'. exact Hrun.
Qed.

Lemma calculate_po_attainment_returns_iff_complete_witness :
  ((exists df', calculate_po_attainment example_df example_mapping
                  ["CO1"; "CO2"]%string = Py.Ok df') <->
   matrix_complete example_mapping ["CO1"; "CO2"]%string po_list) /\
  ((exists df', calculate_po_attainment example_df example_mapping
                  ["CO1"; "CO9"]%string = Py.Ok df') <->
   matrix_complete example_mapping ["CO1"; "CO9"]%string po_list) /\
  ((exists df', calculate_po_attainment example_df
                  {| Course_Outcome := []; weight_columns := ∅ |} []
                = Py.Ok df') <->
   matrix_complete {| Course_Outcome := []; weight_columns := ∅ |} [] po_list).
Proof.
  split; [| split];
    apply (calculate_po_attainment_returns_iff_complete example_df);
    discriminate.
Defined.

(** * Further properties of the clustering *)

Lemma present_columns_app df cols cols' :
  present_columns df (cols ++ cols')
  = present_columns df cols ++ present_columns df cols'.
Proof. unfold present_columns. apply List.filter_app. Qed.

(** The two loops of [student_clustering] collect the columns that are
    present, in order, with their names. *)
Lemma fold_add_feature df cols :
  forall acc,
    fold_left (add_feature df) cols acc
    = (fst acc ++ omap (fun col => columns df !! col) cols,
       snd acc ++ present_columns df cols).
Proof.
  induction cols as [| col cols IH]; intros [features names].
  - simpl. now rewrite !app_nil_r.
  - cbn [fold_left]. rewrite IH. unfold add_feature, present_columns.
    cbn [List.filter omap]. unfold list_omap. cbn [fst snd].
    destruct (columns df !! col) as [cells |]; cbn [fst snd].
    + now rewrite <- !app_assoc.
    + reflexivity.
Qed.

Lemma omap_present_length df cols :
  length (omap (fun col => columns df !! col) cols)
  = length (present_columns df cols).
Proof.
  induction cols as [| col cols IH]; [reflexivity |].
  unfold present_columns in *. cbn [omap List.filter]. unfold list_omap.
  destruct (columns df !! col); simpl; now rewrite <- IH.
Qed.

Section Clustering.

Variable scaler_fit_transform : list (list Q) -> list (list Q).
Variable kmeans_fit_predict : list (list Q) -> list nat.

Local Abbreviation clustered := (clustered_table scaler_fit_transform kmeans_fit_predict).

(** With a feature column present, [student_clustering] takes its second
    branch. *)
Lemma student_clustering_clusters df co_list pos :
  present_columns df (feature_columns co_list pos) <> [] ->
  student_clustering scaler_fit_transform kmeans_fit_predict df co_list pos
  = Py.bind
      (fold_left
         (fun r cluster_id =>
            Py.bind r (fun cluster_analysis =>
              analyze_cluster (clustered df co_list pos)
                (present_columns df (feature_columns co_list pos))
                cluster_analysis cluster_id))
         (seq 0 3) (Py.Ok ∅))
      (fun cluster_analysis => Py.Ok (clustered df co_list pos, cluster_analysis)).
Proof.
  intros Hpresent. unfold student_clustering.
  rewrite !fold_add_feature. cbn [fst snd app].
  rewrite <- omap_app, <- present_columns_app.
  fold (feature_columns co_list pos).
  destruct (Nat.eqb_spec
              (length (omap (fun col => columns df !! col)
                            (feature_columns co_list pos))) 0) as [E | _].
  - rewrite omap_present_length in E. apply length_zero_iff_nil in E. contradiction.
  - reflexivity.
Qed.

Lemma characteristics_dom df members names :
  (forall name, In name names -> is_Some (columns df !! name)) ->
  dom (_analyze_cluster_characteristics df members names)
  = (list_to_set names : gset string).
Proof.
  unfold _analyze_cluster_characteristics.
  assert (H : forall acc : gmap string (option Q),
            (forall name, In name names -> is_Some (columns df !! name)) ->
            dom (fold_left
                   (fun characteristics feature =>
                      match columns df !! feature with
                      | Some cells =>
                          <[feature := mean (take_rows members cells)]> characteristics
                      | None => characteristics
                      end) names acc)
            = dom acc ∪ (list_to_set names : gset string)).
  { induction names as [| name names IH]; intros acc Hall.
    - simpl. set_solver.
    - cbn [fold_left]. destruct (Hall name (or_introl eq_refl)) as [cells ->].
      rewrite IH by (intros n Hn; apply Hall; now right).
      rewrite dom_insert_L. simpl. set_solver. }
  intros Hall. rewrite (H ∅ Hall). rewrite dom_empty_L. set_solver.
Qed.

Lemma present_columns_clustered df co_list pos name :
  In name (present_columns df (feature_columns co_list pos)) ->
  is_Some (columns (clustered df co_list pos) !! name).
Proof.
  unfold present_columns. intros H. apply filter_In in H. destruct H as [_ H].
  unfold clustered_table, set_column. simpl.
  destruct (decide ("performance_cluster"%string = name)) as [<- | Hne].
  - rewrite lookup_insert_eq. eauto.
  - rewrite lookup_insert_ne by assumption.
    destruct (columns df !! name); [eauto | discriminate].
Qed.

Lemma grade_points_clustered df co_list pos :
  columns (clustered df co_list pos) !! "grade_points"%string
  = columns df !! "grade_points"%string.
Proof. unfold clustered_table, set_column. simpl. now apply lookup_insert_ne. Qed.

(** X17. On a table of at least three rows, what [KMeans(n_clusters=3)]
    needs to return labels, with at least one feature column and the column
    [grade_points], [student_clustering] returns the table with the one new
    column [performance_cluster] holding the k-means labels, and a summary
    with exactly the three keys 0, 1, 2, each listing the mean of exactly
    the feature columns that were found. *)
Theorem student_clustering_summary :
  forall df co_list pos grade_points,
    (3 <= nrows df)%nat ->
    present_columns df (feature_columns co_list pos) <> [] ->
    columns df !! "grade_points"%string = Some grade_points ->
    exists cluster_analysis,
      student_clustering scaler_fit_transform kmeans_fit_predict df co_list pos
        = Py.Ok (clustered df co_list pos, cluster_analysis) /\
      dom cluster_analysis = ({[ 0%nat; 1%nat; 2%nat ]} : gset nat) /\
      forall cluster_id info,
        cluster_analysis !! cluster_id = Some info ->
        size info = length (cluster_members (clustered df co_list pos) cluster_id) /\
        dom (characteristics info)
        = (list_to_set (present_columns df (feature_columns co_list pos))
           : gset string).
Proof.
  intros df co_list pos gp _ Hpresent Hgp.
  rewrite (student_clustering_clusters df co_list pos Hpresent).
  cbn [seq fold_left Py.bind]. unfold analyze_cluster.
  rewrite grade_points_clustered, Hgp. cbn [Py.bind].
  eexists. split; [reflexivity |]. split.
  - rewrite !dom_insert_L, dom_empty_L. set_solver.
  - intros k info Hk.
    assert (Hdom : forall members,
              dom (_analyze_cluster_characteristics (clustered df co_list pos) members
                     (present_columns df (feature_columns co_list pos)))
              = (list_to_set (present_columns df (feature_columns co_list pos))
                 : gset string)).
    { intros members. apply characteristics_dom.
      intros name. apply present_columns_clustered. }
    destruct (decide (k = 2%nat)) as [-> | H2].
    { rewrite lookup_insert_eq in Hk. injection Hk as <-. simpl.
      split; [reflexivity | apply Hdom]. }
    rewrite lookup_insert_ne in Hk by congruence.
    destruct (decide (k = 1%nat)) as [-> | H1].
    { rewrite lookup_insert_eq in Hk. injection Hk as <-. simpl.
      split; [reflexivity | apply Hdom]. }
    rewrite lookup_insert_ne in Hk by congruence.
    destruct (decide (k = 0%nat)) as [-> | H0].
    { rewrite lookup_insert_eq in Hk. injection Hk as <-. simpl.
      split; [reflexivity | apply Hdom]. }
    rewrite lookup_insert_ne in Hk by congruence.
    rewrite lookup_empty in Hk. discriminate.
Qed.

(** X18. On a table of at least three rows, so that k-means returns its
    labels, with a feature column present but no column [grade_points],
    [student_clustering] raises [KeyError]. *)
Theorem student_clustering_needs_grade_points :
  forall df co_list pos,
    (3 <= nrows df)%nat ->
    present_columns df (feature_columns co_list pos) <> [] ->
    columns df !! "grade_points"%string = None ->
    student_clustering scaler_fit_transform kmeans_fit_predict df co_list pos
      = Py.Raise Py.KeyError.
Proof.
  intros df co_list pos _ Hpresent Hgp.
  rewrite (student_clustering_clusters df co_list pos Hpresent).
  cbn [seq fold_left Py.bind]. unfold analyze_cluster.
  rewrite grade_points_clustered, Hgp. reflexivity.
Qed.

Lemma label_eqb (l k : nat) :
  Qeq_bool (inject_Z (Z.of_nat l)) (inject_Z (Z.of_nat k)) = (l =? k)%nat.
Proof.
  destruct (Nat.eqb_spec l k) as [-> | Hne].
  - apply Qeq_bool_iff. reflexivity.
  - apply not_true_iff_false. intros H. apply Qeq_bool_iff in H.
    unfold Qeq in H. simpl in H. lia.
Qed.

Lemma three_way_partition (p0 p1 p2 : nat -> bool) (idxs : list nat) :
  (forall i, In i idxs ->
     exists l, (l < 3)%nat /\
               p0 i = (l =? 0)%nat /\ p1 i = (l =? 1)%nat /\ p2 i = (l =? 2)%nat) ->
  (length (List.filter p0 idxs) + length (List.filter p1 idxs)
   + length (List.filter p2 idxs) = length idxs)%nat.
Proof.
  induction idxs as [| i idxs IH]; intros H; [reflexivity |].
  specialize (IH (fun j Hj => H j (or_intror Hj))).
  destruct (H i (or_introl eq_refl)) as (l & Hl & E0 & E1 & E2).
  cbn [List.filter]. rewrite E0, E1, E2.
  destruct l as [| [| [| l]]]; simpl; lia.
Qed.

Lemma clustered_label df co_list pos idx :
  sklearn_shapes scaler_fit_transform kmeans_fit_predict ->
  (idx < nrows df)%nat ->
  exists l,
    (l < 3)%nat /\
    cell (clustered df co_list pos) "performance_cluster" idx
    = Some (inject_Z (Z.of_nat l)).
Proof.
  intros [Hscaler Hkmeans] Hidx. unfold cell, clustered_table, set_column. simpl.
  rewrite lookup_insert_eq, list_lookup_fmap.
  unfold clustering_labels.
  set (m := scaler_fit_transform _).
  destruct (Hkmeans m) as [Hlen Hrange].
  assert (Hm : length m = nrows df).
  { unfold m. rewrite Hscaler. unfold column_stack.
    now rewrite length_map, length_seq. }
  destruct (lookup_lt_is_Some_2 (kmeans_fit_predict m) idx) as [l Hl]; [lia |].
  exists l. rewrite Hl. split; [| reflexivity].
  rewrite List.Forall_forall in Hrange. apply Hrange.
  apply list_elem_of_In. eapply list_elem_of_lookup_2, Hl.
Qed.

(** X19. When the scaler keeps the number of rows and k-means labels
    every row 0, 1 or 2, the three cluster sizes of the summary add up to
    the number of students. *)
Theorem student_clustering_sizes :
  forall df co_list pos grade_points,
    sklearn_shapes scaler_fit_transform kmeans_fit_predict ->
    present_columns df (feature_columns co_list pos) <> [] ->
    columns df !! "grade_points"%string = Some grade_points ->
    exists df' cluster_analysis i0 i1 i2,
      student_clustering scaler_fit_transform kmeans_fit_predict df co_list pos
        = Py.Ok (df', cluster_analysis) /\
      cluster_analysis !! 0%nat = Some i0 /\
      cluster_analysis !! 1%nat = Some i1 /\
      cluster_analysis !! 2%nat = Some i2 /\
      (size i0 + size i1 + size i2 = nrows df)%nat.
Proof.
  intros df co_list pos gp Hshapes Hpresent Hgp.
  rewrite (student_clustering_clusters df co_list pos Hpresent).
  cbn [seq fold_left Py.bind]. unfold analyze_cluster.
  rewrite grade_points_clustered, Hgp. cbn [Py.bind].
  eexists _, _, _, _, _. split; [reflexivity |].
  split; [reflexivity |]. split; [reflexivity |]. split; [reflexivity |].
  cbn [size]. unfold cluster_members.
  assert (Hcol : exists cells,
            columns (clustered df co_list pos) !! "performance_cluster"%string
            = Some cells).
  { unfold clustered_table, set_column. simpl. rewrite lookup_insert_eq. eauto. }
  destruct Hcol as [cells Hcells]. rewrite Hcells.
  assert (Hn : nrows (clustered df co_list pos) = nrows df) by reflexivity.
  rewrite Hn.
  transitivity (length (seq 0 (nrows df))); [| apply length_seq].
  apply three_way_partition. intros i Hi. apply in_seq in Hi.
  destruct (clustered_label df co_list pos i Hshapes) as (l & Hl & Hcell); [lia |].
  unfold cell in Hcell. rewrite Hcells in Hcell. rewrite Hcell.
  exists l. split; [exact Hl |]. rewrite !label_eqb. repeat split.
Qed.

(** X20. Under the same guarantees the group shown for a student of the
    clustered table is always defined: indexing [cluster_names] by the
    stored cluster id does not raise. *)
Theorem clustered_students_have_a_group :
  forall df co_list pos idx,
    sklearn_shapes scaler_fit_transform kmeans_fit_predict ->
    (idx < nrows df)%nat ->
    exists group,
      student_performance_group (clustered df co_list pos) idx
      = Some (Py.Ok group).
Proof.
  intros df co_list pos idx Hshapes Hidx.
  destruct (clustered_label df co_list pos idx Hshapes Hidx) as (l & Hl & Hcell).
  unfold student_performance_group. unfold cell in Hcell.
  destruct (columns (clustered df co_list pos) !! "performance_cluster"%string)
    as [cells |]; [| discriminate].
  rewrite Hcell. unfold shown_performance_group, int. simpl Qnum. simpl Qden.
  rewrite Z.quot_1_r.
  destruct l as [| [| [| l]]]; [| | | lia]; eexists; reflexivity.
Qed.

End Clustering.

Lemma one_cluster_shapes : sklearn_shapes (fun m => m) one_cluster.
Proof.
  split; [reflexivity |]. intros m. unfold one_cluster. split.
  - apply length_map.
  - apply List.Forall_forall. intros k Hk. apply in_map_iff in Hk.
    destruct Hk as (_ & <- & _). lia.
Defined.

Lemma student_clustering_summary_witness :
  exists cluster_analysis,
    student_clustering (fun m => m) weakest_first graded_df ["CO1"]%string po_list
      = Py.Ok (clustered_table (fun m => m) weakest_first graded_df
                 ["CO1"]%string po_list, cluster_analysis) /\
    dom cluster_analysis = ({[ 0%nat; 1%nat; 2%nat ]} : gset nat) /\
    forall cluster_id info,
      cluster_analysis !! cluster_id = Some info ->
      size info = length (cluster_members
                            (clustered_table (fun m => m) weakest_first graded_df
                               ["CO1"]%string po_list) cluster_id) /\
      dom (characteristics info)
      = (list_to_set (present_columns graded_df
                        (feature_columns ["CO1"]%string po_list)) : gset string).
Proof.
  eapply (student_clustering_summary (fun m => m) weakest_first graded_df
            ["CO1"]%string po_list).
  - unfold nrows. simpl. lia.
  - vm_compute. discriminate.
  - reflexivity.
Defined.

Lemma student_clustering_needs_grade_points_witness :
  student_clustering (fun m => m) weakest_first ungraded_df
    ["CO1"]%string po_list
  = Py.Raise Py.KeyError.
Proof.
  apply (student_clustering_needs_grade_points (fun m => m) weakest_first).
  - unfold nrows. simpl. lia.
  - vm_compute. discriminate.
  - reflexivity.
Defined.

Lemma student_clustering_sizes_witness :
  exists df' cluster_analysis i0 i1 i2,
    student_clustering (fun m => m) one_cluster graded_df ["CO1"]%string po_list
      = Py.Ok (df', cluster_analysis) /\
    cluster_analysis !! 0%nat = Some i0 /\
    cluster_analysis !! 1%nat = Some i1 /\
    cluster_analysis !! 2%nat = Some i2 /\
    (size i0 + size i1 + size i2 = nrows graded_df)%nat.
Proof.
  eapply (student_clustering_sizes (fun m => m) one_cluster graded_df
            ["CO1"]%string po_list).
  - exact one_cluster_shapes.
  - vm_compute. discriminate.
  - reflexivity.
Defined.

Lemma clustered_students_have_a_group_witness :
  exists group,
    student_performance_group
      (clustered_table (fun m => m) one_cluster graded_df ["CO1"]%string po_list) 2
    = Some (Py.Ok group).
Proof.
  apply (clustered_students_have_a_group (fun m => m) one_cluster graded_df
           ["CO1"]%string po_list 2%nat).
  - exact one_cluster_shapes.
  - unfold nrows. simpl. lia.
Defined.

(** * Prediction *)

Lemma select_columns_present df features :
  (forall f, In f features -> is_Some (columns df !! f)) ->
  exists X, select_columns df features = Py.Ok X.
Proof.
  induction features as [| f fs IH]; intros H; [eexists; reflexivity |].
  cbn [select_columns]. destruct (H f (or_introl eq_refl)) as [cells ->].
  destruct IH as [X ->]; [intros g Hg; apply H; now right |].
  eexists. reflexivity.
Qed.

Lemma select_columns_missing df features :
  (exists f, In f features /\ columns df !! f = None) ->
  select_columns df features = Py.Raise Py.KeyError.
Proof.
  induction features as [| f fs IH]; intros (g & Hg & Hnone); [destruct Hg |].
  cbn [select_columns]. destruct (columns df !! f) as [cells |] eqn:E; [| reflexivity].
  rewrite IH; [reflexivity |].
  destruct Hg as [-> | Hg]; [congruence | eauto].
Qed.

Lemma present_columns_present df cols f :
  In f (present_columns df cols) -> is_Some (columns df !! f).
Proof.
  unfold present_columns. intros H. apply filter_In in H. destruct H as [_ H].
  destruct (columns df !! f); [eauto | discriminate].
Qed.

(** X21. [predict_performance] never touches the rows or any column of
    [df_predict] other than [predicted_grade_points]; with fewer than two
    achievement columns in the training table it returns [df_predict] as it
    is; and with two or more it raises [KeyError] when the training table
    has no [grade_points] column or [df_predict] lacks one of the
    achievement columns found in the training table. *)
Theorem predict_performance_cases :
  forall rf_fit_predict df_train df_predict co_list,
    let features := present_columns df_train (map achievement_col co_list) in
    (forall df', predict_performance rf_fit_predict df_train df_predict co_list
                   = Py.Ok df' ->
       rows df' = rows df_predict /\
       forall col, col <> "predicted_grade_points"%string ->
                   columns df' !! col = columns df_predict !! col) /\
    ((length features < 2)%nat ->
     predict_performance rf_fit_predict df_train df_predict co_list
       = Py.Ok df_predict) /\
    ((2 <= length features)%nat ->
     columns df_train !! "grade_points"%string = None \/
     (exists f, In f features /\ columns df_predict !! f = None) ->
     predict_performance rf_fit_predict df_train df_predict co_list
       = Py.Raise Py.KeyError).
Proof.
  intros rf df_train df_predict co_list features.
  assert (Htrain : exists X, select_columns df_train features = Py.Ok X).
  { apply select_columns_present. intros f Hf.
    eapply present_columns_present, Hf. }
  destruct Htrain as [X_train Htrain].
  unfold predict_performance. fold features. rewrite Htrain. cbn [Py.bind].
  split; [| split].
  - intros df'. destruct (length features <? 2)%nat.
    { intros H. injection H as <-. split; reflexivity. }
    destruct (columns df_train !! "grade_points"%string); [| discriminate].
    destruct (select_columns df_predict features); [| discriminate].
    cbn [Py.bind]. intros H. injection H as <-. split; [reflexivity |].
    intros col Hcol. simpl. apply lookup_insert_ne. congruence.
  - intros Hlt. apply Nat.ltb_lt in Hlt. now rewrite Hlt.
  - intros Hge Hmissing. apply Nat.ltb_ge in Hge. rewrite Hge.
    destruct Hmissing as [-> | Hmissing]; [reflexivity |].
    destruct (columns df_train !! "grade_points"%string); [| reflexivity].
    now rewrite (select_columns_missing df_predict features Hmissing).
Qed.

(** * Suggestions *)

(** X22. [_generate_suggestions] returns three academic suggestions, one
    suggestion for each of the five component thresholds that the student
    misses, and two career suggestions: between five and ten in all. A
    dictionary without any mark misses all five thresholds. *)
Theorem generate_suggestions_length :
  forall student_data,
    length (_generate_suggestions student_data)
    = (5 + missed_thresholds student_data)%nat /\
    (5 <= length (_generate_suggestions student_data) <= 10)%nat /\
    length (_generate_suggestions ∅) = 10%nat.
Proof.
  intros student_data.
  assert (Hlen : length (_generate_suggestions student_data)
                 = (5 + missed_thresholds student_data)%nat).
  { unfold _generate_suggestions, missed_thresholds, component_thresholds.
    cbn [List.filter fst snd].
    repeat match goal with
    | |- context [nan_lt ?x ?b] => destruct (nan_lt x b)
    end;
    repeat match goal with
    | |- context [nan_ge ?x ?b] => destruct (nan_ge x b)
    end; reflexivity. }
  split; [exact Hlen |]. split; [| reflexivity].
  rewrite Hlen. unfold missed_thresholds.
  pose proof (List.filter_length_le
                (fun entry => nan_lt (get_number student_data (fst entry)) (snd entry))
                component_thresholds) as Hle.
  simpl length in Hle at 2. lia.
Qed.

Lemma predict_performance_cases_witness :
  predict_performance (fun _ _ _ => [])
    (calculate_all_co_achievements example_df ["CO1"; "CO2"]%string)
    example_df ["CO1"; "CO2"]%string
  = Py.Raise Py.KeyError.
Proof.
  apply (proj2 (proj2 (predict_performance_cases (fun _ _ _ => [])
           (calculate_all_co_achievements example_df ["CO1"; "CO2"]%string)
           example_df ["CO1"; "CO2"]%string))).
  - vm_compute. lia.
  - left. reflexivity.
Defined.
